(** * QuakesMap: the earthquake map component of src/maps/QuakesMap.jsx

    A shallow embedding of the component's own logic: the marker radius
    ([getMarkerRadius]), the two GeoJSON callbacks ([pointToLayer],
    [onEachFeature]), the popup element ([Popup]), the data fetch
    ([fetchQuakeData]) and the filter buttons with the effect that refetches
    when a filter changes ([Map]).

    JavaScript numbers are IEEE-754 doubles, modelled by Rocq's primitive
    [float]. The radius function is written once over an interface of the
    arithmetic it uses, and read both over doubles (what the code computes)
    and over the real numbers (what the formula means). *)

From Stdlib Require Import Bool List String Ascii ZArith QArith Uint63 Floats.
From Stdlib Require Import Reals Lra Lia.
Import ListNotations.

Set Warnings "-register-all,-inexact-float".

(* ================================================================== *)
(** ** Arithmetic used by the component *)

(** The operations [getMarkerRadius] applies to its argument: numeric
    literals, [-], [*], [/], [Math.pow], [Math.sqrt] and [Math.PI]. *)
Class JSArith (num : Type) : Type := {
  lit : Q -> num;
  minus : num -> num -> num;
  times : num -> num -> num;
  divide : num -> num -> num;
  Math_pow : num -> num -> num;
  Math_sqrt : num -> num;
  Math_PI : num
}.

Section MarkerRadius.
Context {num : Type} `{JSArith num}.

(** [function getMarkerRadius(magnitude)], lines 27-32. *)
Definition getMarkerRadius (magnitude : num) : num :=
  let baseArea := lit 10 in
  let scaleFactor := lit (5 # 2) in
  let area :=
    times baseArea
          (Math_pow (lit 10) (divide (minus magnitude (lit 1)) scaleFactor)) in
  Math_sqrt (divide area Math_PI).

(** The formula of the specification,
    [sqrt((10 * 10^((m-1)/2.5)) / pi)], in the same arithmetic. *)
Definition radius_formula (m : num) : num :=
  Math_sqrt
    (divide (times (lit 10)
                   (Math_pow (lit 10) (divide (minus m (lit 1)) (lit (5 # 2)))))
            Math_PI).
End MarkerRadius.

(** *** Exact arithmetic: the real numbers *)

#[export] Instance RealArith : JSArith R := {|
  lit := Q2R;
  minus := Rminus;
  times := Rmult;
  divide := Rdiv;
  Math_pow := Rpower;
  Math_sqrt := sqrt;
  Math_PI := PI
|}.

(** *** The code's arithmetic: IEEE-754 doubles *)

Module Double.

(** A decimal literal of the source, read as the quotient of two integers
    that are doubles themselves ([10], [1] and [2.5 = 5/2] are exact). *)
Definition of_Z (z : Z) : float :=
  match z with
  | Z0 => PrimFloat.zero
  | Zpos _ => PrimFloat.of_uint63 (Uint63.of_Z z)
  | Zneg p => PrimFloat.opp (PrimFloat.of_uint63 (Uint63.of_Z (Zpos p)))
  end.

Definition literal (q : Q) : float :=
  PrimFloat.div (of_Z (Qnum q)) (of_Z (Zpos (Qden q))).

(** [Math.PI], the double nearest to pi: 3.141592653589793. *)
Definition PI : float := 0x1.921fb54442d18p+1%float.

(** [Math.pow] (ECMA-262, Number::exponentiate): a NaN exponent gives NaN,
    a zero exponent gives 1 whatever the base, a NaN base gives NaN;
    every other result is an implementation-approximated value, which
    the host's [approx] stands for. *)
Definition pow (approx : float -> float -> float) (base exponent : float)
  : float :=
  if PrimFloat.is_nan exponent then PrimFloat.nan
  else if PrimFloat.is_zero exponent then PrimFloat.one
  else if PrimFloat.is_nan base then PrimFloat.nan
  else approx base exponent.

Definition arith (approx : float -> float -> float) : JSArith float := {|
  lit := literal;
  minus := PrimFloat.sub;
  times := PrimFloat.mul;
  divide := PrimFloat.div;
  Math_pow := pow approx;
  Math_sqrt := PrimFloat.sqrt;
  Math_PI := PI
|}.

(** [getMarkerRadius] as the browser runs it. *)
Definition markerRadius (approx : float -> float -> float) (magnitude : float)
  : float :=
  @getMarkerRadius float (arith approx) magnitude.

(** [a < b] on doubles, as a proposition. *)
Definition lt (a b : float) : Prop := PrimFloat.ltb a b = true.

(** The radius is strictly increasing on finite doubles. *)
Definition strictly_increasing (approx : float -> float -> float) : Prop :=
  forall m1 m2 : float,
    PrimFloat.is_finite m1 = true -> PrimFloat.is_finite m2 = true ->
    lt m1 m2 -> lt (markerRadius approx m1) (markerRadius approx m2).

End Double.

(* ================================================================== *)
(** ** JavaScript values, exceptions and the host *)

(** Values of the feed document after [JSON.parse], and [undefined]. An
    object keeps its members as an association list in document order. *)
Inductive JSValue : Type :=
| JUndefined
| JNull
| JBool (b : bool)
| JNum (x : float)
| JStr (s : string)
| JArr (items : list JSValue)
| JObj (members : list (string * JSValue)).

(** Thrown values and promise rejections. *)
Inductive exn : Type :=
| TypeError (message : string)
| SyntaxError (message : string)
| Error (message : string).

(** How an evaluation ends: normally with a value, or abruptly. *)
Inductive completion (A : Type) : Type :=
| Normal (a : A)
| Throw (e : exn).
Arguments Normal {A} a.
Arguments Throw {A} e.

Definition bind {A B : Type} (c : completion A) (k : A -> completion B)
  : completion B :=
  match c with
  | Normal a => k a
  | Throw e => Throw e
  end.

Declare Scope js_scope.
Delimit Scope js_scope with js.
Notation "x <- c ;; k" := (bind c (fun x => k))
  (at level 61, c at next level, right associativity) : js_scope.
Notation "' pat <- c ;; k" := (bind c (fun x => let pat := x in k))
  (at level 61, pat pattern, c at next level, right associativity) : js_scope.

(** What the component takes from the JavaScript engine and is not written
    in the repository: the approximation behind [Math.pow], the printing of
    a number ([Number::toString]) and the conversion of a string or an
    array to a number. *)
Record Host : Type := {
  pow_approx : float -> float -> float;
  Number_toString : float -> string;
  ToNumber_ext : JSValue -> float
}.

(** [ToBoolean]: the falsy values are [undefined], [null], [false], [NaN],
    [+0], [-0] and the empty string. *)
Definition ToBoolean (v : JSValue) : bool :=
  match v with
  | JUndefined | JNull => false
  | JBool b => b
  | JNum x => negb (PrimFloat.is_nan x || PrimFloat.is_zero x)
  | JStr s => negb (String.eqb s "")
  | JArr _ | JObj _ => true
  end.

(** [ToNumber], applied by [magnitude - 1] to its left operand. *)
Definition ToNumber (host : Host) (v : JSValue) : float :=
  match v with
  | JUndefined => PrimFloat.nan
  | JNull => PrimFloat.zero
  | JBool b => if b then PrimFloat.one else PrimFloat.zero
  | JNum x => x
  | JStr _ | JArr _ => ToNumber_ext host v
  | JObj _ => PrimFloat.nan
  end.

Fixpoint lookup (key : string) (members : list (string * JSValue)) : JSValue :=
  match members with
  | [] => JUndefined
  | (k, v) :: rest => if String.eqb k key then v else lookup key rest
  end.

(** [v.key] for the member names the component reads ([features],
    [properties], [geometry], [coordinates], [place], [mag], [type], [url]):
    reading a member of [undefined] or [null] throws a TypeError; none of
    these names is a member of an array, string, number or boolean. *)
Definition prop (v : JSValue) (key : string) : completion JSValue :=
  match v with
  | JUndefined =>
      Throw (TypeError ("Cannot read properties of undefined (reading '"
                          ++ key ++ "')"))
  | JNull =>
      Throw (TypeError ("Cannot read properties of null (reading '"
                          ++ key ++ "')"))
  | JObj members => Normal (lookup key members)
  | JBool _ | JNum _ | JStr _ | JArr _ => Normal JUndefined
  end.

Fixpoint chars (s : string) : list JSValue :=
  match s with
  | EmptyString => []
  | String c rest => JStr (String c EmptyString) :: chars rest
  end.

(** [const [a, b, c] = v]: the first three values [v] iterates over,
    [undefined] where it has fewer; a value that is not iterable throws.
    Arrays and strings are the iterable values of a parsed document. *)
Definition destructure3 (v : JSValue)
  : completion (JSValue * JSValue * JSValue) :=
  let first3 (l : list JSValue) :=
    (nth 0 l JUndefined, nth 1 l JUndefined, nth 2 l JUndefined) in
  match v with
  | JArr items => Normal (first3 items)
  | JStr s => Normal (first3 (chars s))
  | JUndefined => Throw (TypeError "undefined is not iterable")
  | JNull => Throw (TypeError "null is not iterable")
  | JBool _ | JNum _ | JObj _ => Throw (TypeError "value is not iterable")
  end.

(** [{...v}] in JSX: the own members of an object. *)
Definition spread (v : JSValue) : JSValue :=
  match v with
  | JObj members => JObj members
  | _ => JObj []
  end.

(** [String.prototype.includes]. *)
Fixpoint includes (needle hay : string) : bool :=
  if String.prefix needle hay then true
  else match hay with
       | EmptyString => false
       | String _ rest => includes needle rest
       end.

(* ================================================================== *)
(** ** React elements and their rendering *)

(** A JSX element: its type (a tag or a component of the UI kit), its props
    and its children; a child is literal text, an embedded expression or
    an element. *)
Inductive Node : Type :=
| Text (s : string)
| Expr (v : JSValue)
| Elem (type : string) (props : list (string * JSValue)) (children : list Node).

(** The markup [renderToString] produces, as a tree: expressions are turned
    into text. The elements of the UI kit are kept as they are. *)
Inductive Markup : Type :=
| MText (s : string)
| MElem (type : string) (props : list (string * JSValue)) (children : list Markup).

Section Rendering.
Variable host : Host.

(** A value as a React child: strings and numbers are text, [undefined],
    [null] and booleans render nothing, an array renders its items and a
    plain object is refused. *)
Fixpoint render_value (v : JSValue) : completion (list Markup) :=
  match v with
  | JUndefined | JNull | JBool _ => Normal []
  | JNum x => Normal [MText (Number_toString host x)]
  | JStr s => Normal [MText s]
  | JArr items =>
      (fix each (l : list JSValue) : completion (list Markup) :=
         match l with
         | [] => Normal []
         | x :: rest =>
             bind (render_value x) (fun m =>
             bind (each rest) (fun ms => Normal (m ++ ms)))
         end) items
  | JObj _ => Throw (Error "Objects are not valid as a React child")
  end.

Fixpoint render_node (n : Node) : completion (list Markup) :=
  match n with
  | Text s => Normal [MText s]
  | Expr v => render_value v
  | Elem type props children =>
      bind ((fix each (l : list Node) : completion (list Markup) :=
               match l with
               | [] => Normal []
               | x :: rest =>
                   bind (render_node x) (fun m =>
                   bind (each rest) (fun ms => Normal (m ++ ms)))
               end) children)
           (fun ms => Normal [MElem type props ms])
  end.

(** [renderToString(element)] of react-dom/server for an element whose
    component has been called. *)
Definition renderToString (element : Node) : completion (list Markup) :=
  render_node element.
End Rendering.

(** The text a reader sees: the text nodes in document order. *)
Fixpoint textContent (m : Markup) : string :=
  match m with
  | MText s => s
  | MElem _ _ children =>
      (fix each (l : list Markup) : string :=
         match l with
         | [] => EmptyString
         | x :: rest => (textContent x ++ each rest)%string
         end) children
  end.

Definition textOf (ms : list Markup) : string :=
  fold_right (fun m acc => (textContent m ++ acc)%string) EmptyString ms.

(** The elements of a given type, in document order. *)
Fixpoint elements (type : string) (m : Markup) : list Markup :=
  match m with
  | MText _ => []
  | MElem t props children =>
      (if String.eqb t type then [m] else []) ++
      (fix each (l : list Markup) : list Markup :=
         match l with
         | [] => []
         | x :: rest => elements type x ++ each rest
         end) children
  end.

Definition elementsOf (type : string) (ms : list Markup) : list Markup :=
  flat_map (elements type) ms.

Definition attribute (name : string) (m : Markup) : JSValue :=
  match m with
  | MText _ => JUndefined
  | MElem _ props _ => lookup name props
  end.

(* ================================================================== *)
(** ** Markers and popups *)

(** Line 24. *)
Definition BASE_URL : string :=
  "https://earthquake.usgs.gov/earthquakes/feed/v1.0/summary/".

(** The position the map library passes to [pointToLayer]. *)
Record LatLng : Type := { lat : float; lng : float }.

(** A Leaflet circle marker: the options it was made with and the popup
    bound to it, if any. *)
Record CircleMarker : Type := {
  position : LatLng;
  radius : float;
  color : string;
  popup : option (list Markup)
}.

(** [L.circleMarker(latlng, { radius, color })]. *)
Definition L_circleMarker (latlng : LatLng) (r : float) (c : string)
  : CircleMarker :=
  {| position := latlng; radius := r; color := c; popup := None |}.

(** [layer.bindPopup(content)]. *)
Definition bindPopup (content : list Markup) (layer : CircleMarker)
  : CircleMarker :=
  {| position := position layer; radius := radius layer;
     color := color layer; popup := Some content |}.

Section Callbacks.
Variable host : Host.
Open Scope js_scope.
Open Scope string_scope.

(** [const pointToLayer = ({ properties }, latlng) => ...], lines 35-38.
    The subtraction in [getMarkerRadius] converts [properties.mag] to a
    number. *)
Definition pointToLayer (feature : JSValue) (latlng : LatLng)
  : completion CircleMarker :=
  properties <- prop feature "properties" ;;
  mag <- prop properties "mag" ;;
  let radius := Double.markerRadius (pow_approx host) (ToNumber host mag) in
  Normal (L_circleMarker latlng radius "red").

Definition bold (label : string) : Node :=
  Elem "span" [("style", JObj [("fontWeight", JStr "bold")])] [Text label].

(** [function Popup({ properties, geometry })], lines 50-75. *)
Definition Popup (props : JSValue) : completion Node :=
  properties <- prop props "properties" ;;
  geometry <- prop props "geometry" ;;
  coordinates <- prop geometry "coordinates" ;;
  '(lon, lat, depth) <- destructure3 coordinates ;;
  place <- prop properties "place" ;;
  mag <- prop properties "mag" ;;
  type <- prop properties "type" ;;
  url <- prop properties "url" ;;
  Normal
    (Elem "Fragment" []
       [ Elem "Typography" [("variant", JStr "h2")] [Expr place];
         Text " ";
         Elem "p" []
           [ bold "MAGNITUDE"; Text ": "; Expr mag;
             Elem "br" [] [];
             bold "DEPTH"; Text ": "; Expr depth; Text " km";
             Elem "br" [] [];
             bold "TYPE"; Text ": "; Expr type;
             Elem "br" [] [];
             bold "Lon/Lat"; Text ": "; Expr lon; Text ", "; Expr lat ];
         Elem "Typography" [("variant", JStr "h3")]
           [ Elem "Link"
               [("variant", JStr "h3"); ("target", JStr "_blank");
                ("href", url)]
               [Text "More info"] ] ]).

(** [const onEachFeature = (feature, layer) => ...], lines 41-47. The
    layer is returned as the call leaves it. *)
Definition onEachFeature (feature : JSValue) (layer : CircleMarker)
  : completion CircleMarker :=
  properties <- prop feature "properties" ;;
  if ToBoolean properties then
    properties <- prop feature "properties" ;;
    place <- prop properties "place" ;;
    if ToBoolean place then
      popup <- Popup (spread feature) ;;
      html <- renderToString host popup ;;
      Normal (bindPopup html layer)
    else Normal layer
  else Normal layer.
End Callbacks.

(* ================================================================== *)
(** ** The component state and the fetch *)

(** The three [useState] cells of [Map], lines 80-82. *)
Record MapState : Type := {
  quakesJson : JSValue;
  minMag : string;
  timespan : string
}.

Definition initialState : MapState :=
  {| quakesJson := JArr []; minMag := "2.5"; timespan := "week" |}.

Definition setQuakesJson (v : JSValue) (s : MapState) : MapState :=
  {| quakesJson := v; minMag := minMag s; timespan := timespan s |}.

Definition setMinMag (magnitude : string) (s : MapState) : MapState :=
  {| quakesJson := quakesJson s; minMag := magnitude; timespan := timespan s |}.

Definition setTimespan (intervall : string) (s : MapState) : MapState :=
  {| quakesJson := quakesJson s; minMag := minMag s; timespan := intervall |}.

(** The page: the component state, what was written to the console, every
    URL [fetch] was called with, and the requests still in flight. *)
Record Page : Type := {
  view : MapState;
  console : list exn;
  fetched : list string;
  inflight : list string
}.

Definition withView (s : MapState) (p : Page) : Page :=
  {| view := s; console := console p;
     fetched := fetched p; inflight := inflight p |}.

(** What the network does with a request: the promise of [fetch] rejects,
    or resolves to a response whose [ok] flag tells a 2xx status and whose
    [json()] promise resolves to the parsed body or rejects. *)
Record Response : Type := { ok : bool; json : completion JSValue }.

Inductive FetchOutcome : Type :=
| Rejects (reason : exn)
| Resolves (resp : Response).

(** Statements of the [async] function: they read and write the page and
    end normally or by throwing. *)
Definition Async (A : Type) : Type := Page -> completion A * Page.

Definition ret {A : Type} (a : A) : Async A := fun p => (Normal a, p).

Definition throw {A : Type} (e : exn) : Async A := fun p => (Throw e, p).

Definition seq {A B : Type} (m : Async A) (k : A -> Async B) : Async B :=
  fun p =>
    match m p with
    | (Normal a, p') => k a p'
    | (Throw e, p') => (Throw e, p')
    end.

Definition try_catch {A : Type} (body : Async A) (handler : exn -> Async A)
  : Async A :=
  fun p =>
    match body p with
    | (Normal a, p') => (Normal a, p')
    | (Throw e, p') => handler e p'
    end.

Definition lift {A : Type} (c : completion A) : Async A := fun p => (c, p).

Definition console_log (e : exn) : Async unit :=
  fun p =>
    (Normal tt,
     {| view := view p; console := console p ++ [e];
        fetched := fetched p; inflight := inflight p |}).

Definition set_quakesJson (v : JSValue) : Async unit :=
  fun p => (Normal tt, withView (setQuakesJson v (view p)) p).

(** [await fetch(url)], once the request has settled. *)
Definition await_fetch (outcome : FetchOutcome) : Async Response :=
  match outcome with
  | Rejects reason => throw reason
  | Resolves resp => ret resp
  end.

Declare Scope async_scope.
Delimit Scope async_scope with async.
Notation "x <- c ;; k" := (seq c (fun x => k))
  (at level 61, c at next level, right associativity) : async_scope.

(** [async function fetchQuakeData(url)], lines 85-96, run with the outcome
    of its request. The result is the completion of the whole call. *)
Definition fetchQuakeData (outcome : FetchOutcome) (url : string) : Async unit :=
  (try_catch
     (resp <- await_fetch outcome ;;
      if negb (ok resp) then
        throw (Error ("Error fetching data from " ++ url)%string)
      else
        data <- lift (json resp) ;;
        features <- lift (prop data "features") ;;
        set_quakesJson features)
     (fun error => console_log error))%async.

(* ================================================================== *)
(** ** The filter buttons and the effect *)

(** A button of the UI kit as [Map] renders it; a [disabled] prop that is
    not given is [false]. *)
Record Button : Type := {
  key : string;
  variant : string;
  disabled : bool;
  label : string;
  onClick : MapState -> MapState
}.

Section Render.
Open Scope string_scope.

(** Lines 118-132. *)
Definition magnitudeButtons (s : MapState) : list Button :=
  map (fun magnitude =>
         {| key := magnitude;
            variant := if minMag s =? magnitude then "contained" else "outlined";
            onClick := setMinMag magnitude;
            disabled :=
              (timespan s =? "month") &&
              ((magnitude =? "all") || (magnitude =? "1.0"));
            label := if magnitude =? "all" then "ALL" else magnitude ++ "+" |})
      ["all"; "1.0"; "2.5"; "4.5"; "significant"].

(** Lines 142-157. *)
Definition timespanButtons (s : MapState) : list Button :=
  map (fun intervall =>
         {| key := intervall;
            variant := if timespan s =? intervall then "contained" else "outlined";
            onClick := setTimespan intervall;
            disabled := false;
            label :=
              if intervall =? "hour" then "LAST HOUR"
              else if intervall =? "day" then "LAST DAY"
              else if intervall =? "week" then "LAST 7 DAYS"
              else "LAST 30 DAYS" |})
      ["hour"; "day"; "week"; "month"].

(** A click on a button: a disabled button does not call its handler. *)
Definition press (b : Button) (s : MapState) : MapState :=
  if disabled b then s else onClick b s.

(** A click on the button with the given key, if it is rendered. *)
Definition click (buttons : list Button) (k : string) (s : MapState)
  : MapState :=
  match find (fun b => key b =? k) buttons with
  | Some b => press b s
  | None => s
  end.

(** The URL the effect builds, line 100. *)
Definition feedUrl (s : MapState) : string :=
  BASE_URL ++ "/" ++ minMag s ++ "_" ++ timespan s ++ ".geojson".

(** The dependencies [[minMag, timespan]] of the effect differ between
    two renders. *)
Definition depsChanged (before after : MapState) : bool :=
  negb ((minMag before =? minMag after) && (timespan before =? timespan after)).

(** The effect, lines 99-102: [fetchQuakeData(url)] calls [fetch(url)]. *)
Definition useEffect (p : Page) : Page :=
  let url := feedUrl (view p) in
  {| view := view p; console := console p;
     fetched := fetched p ++ [url]; inflight := inflight p ++ [url] |}.

(** After a state update the component renders again and the effect runs
    when a dependency has changed. *)
Definition rerender (before : MapState) (p : Page) : Page :=
  if depsChanged before (view p) then useEffect p else p.
End Render.

(** The page after the component has mounted: the effect has run once. *)
Definition mount : Page :=
  useEffect {| view := initialState; console := []; fetched := []; inflight := [] |}.

(** What happens to the page: the user clicks a magnitude or a time button,
    or the [n]-th request in flight settles. *)
Inductive Event : Type :=
| ClickMagnitude (magnitude : string)
| ClickTimespan (intervall : string)
| Settle (n : nat) (outcome : FetchOutcome).

Fixpoint remove_nth {A : Type} (n : nat) (l : list A) : list A :=
  match l, n with
  | [], _ => []
  | _ :: rest, O => rest
  | x :: rest, S n' => x :: remove_nth n' rest
  end.

Definition step (p : Page) (e : Event) : Page :=
  match e with
  | ClickMagnitude k =>
      rerender (view p)
               (withView (click (magnitudeButtons (view p)) k (view p)) p)
  | ClickTimespan k =>
      rerender (view p)
               (withView (click (timespanButtons (view p)) k (view p)) p)
  | Settle n outcome =>
      match nth_error (inflight p) n with
      | None => p
      | Some url =>
          let settled :=
            {| view := view p; console := console p; fetched := fetched p;
               inflight := remove_nth n (inflight p) |} in
          rerender (view p) (snd (fetchQuakeData outcome url settled))
      end
  end.

Definition run (p : Page) (events : list Event) : Page :=
  fold_left step events p.

(** The pages the user and the network can bring about. *)
Definition reachable (p : Page) : Prop :=
  exists events : list Event, run mount events = p.

(* ================================================================== *)
(** ** Notions the statements use *)

#[local] Open Scope string_scope.

(** The page after [console.log(e)]. *)
Definition logged (e : exn) (p : Page) : Page :=
  {| view := view p; console := (console p ++ [e])%list;
     fetched := fetched p; inflight := inflight p |}.

(** A request fails when the transport fails, when the status is not a
    success, or when the body is malformed: it is not JSON, or it is a
    document without members ([null]). *)
Definition fetch_failed (outcome : FetchOutcome) : Prop :=
  match outcome with
  | Rejects _ => True
  | Resolves resp =>
      ok resp = false \/
      exists e : exn,
        bind (json resp) (fun data => prop data "features") = Throw e
  end.

(** A request succeeds with [features] when the status is a success and the
    body is a document whose [features] member is [features]. *)
Definition fetch_succeeded (outcome : FetchOutcome) (features : JSValue) : Prop :=
  match outcome with
  | Rejects _ => False
  | Resolves resp =>
      ok resp = true /\
      bind (json resp) (fun data => prop data "features") = Normal features
  end.

(** [properties.place] is a member of the feature's properties. *)
Definition place_present (feature : JSValue) : bool :=
  match feature with
  | JObj members =>
      match lookup "properties" members with
      | JObj properties => existsb (fun m => fst m =? "place") properties
      | _ => false
      end
  | _ => false
  end.

(** The guard of [onEachFeature]:
    [feature.properties && feature.properties.place] is truthy. *)
Definition place_truthy (feature : JSValue) : bool :=
  match prop feature "properties" with
  | Normal properties =>
      ToBoolean properties &&
      match prop properties "place" with
      | Normal place => ToBoolean place
      | Throw _ => false
      end
  | Throw _ => false
  end.

(** [renderToString(<Popup {...feature} />)]. *)
Definition buildPopup (host : Host) (feature : JSValue)
  : completion (list Markup) :=
  bind (Popup (spread feature)) (renderToString host).

(** The popup a call of [onEachFeature] has left on its layer. *)
Definition boundPopup (c : completion CircleMarker) : list Markup :=
  match c with
  | Normal layer =>
      match popup layer with
      | Some content => content
      | None => []
      end
  | Throw _ => []
  end.

(* ================================================================== *)
(** ** Example data *)

(** A host for the examples: it prints the four numbers of the
    specification's example as ECMAScript prints them. *)
Definition example_host : Host :=
  {| pow_approx := fun _ _ => PrimFloat.nan;
     Number_toString := fun x =>
       if PrimFloat.Leibniz.eqb x 4.2 then "4.2"
       else if PrimFloat.Leibniz.eqb x 8.3 then "8.3"
       else if PrimFloat.Leibniz.eqb x (-120.1) then "-120.1"
       else if PrimFloat.Leibniz.eqb x 35.2 then "35.2"
       else "NaN";
     ToNumber_ext := fun _ => PrimFloat.nan |}.

(** The feature of the specification's example. *)
Definition testville : list (string * JSValue) :=
  [ ("properties",
     JObj [ ("mag", JNum 4.2); ("place", JStr "10km N of Testville");
            ("type", JStr "earthquake"); ("url", JStr "http://x") ]);
    ("geometry",
     JObj [ ("coordinates", JArr [JNum (-120.1); JNum 35.2; JNum 8.3]) ]) ].



(** An event with a place and no [geometry] member. *)
Definition shapeless : list (string * JSValue) :=
  [ ("properties",
     JObj [ ("mag", JNum 4.2); ("place", JStr "10km N of Testville") ]) ].

Definition somewhere : CircleMarker :=
  L_circleMarker {| lat := 35.2; lng := -120.1 |} 2.5 "red".

(** A page that shows one event, for the examples. *)
Definition showing (collection : JSValue) : Page :=
  withView (setQuakesJson collection initialState) mount.

(* ================================================================== *)
(** ** The rest of the render, and notions for its properties *)

(** The options the two rows of buttons are made from, lines 118 and 142. *)
Definition magnitudes : list string :=
  ["all"; "1.0"; "2.5"; "4.5"; "significant"].

Definition timespans : list string := ["hour"; "day"; "week"; "month"].

(** [v.length]: reading it from [undefined] or [null] throws a TypeError;
    an array has its number of items, a string its number of characters
    (the strings of the model are ASCII), an object its own member of that
    name, a number or boolean none. *)
Definition length_of (v : JSValue) : completion JSValue :=
  match v with
  | JUndefined =>
      Throw (TypeError "Cannot read properties of undefined (reading 'length')")
  | JNull =>
      Throw (TypeError "Cannot read properties of null (reading 'length')")
  | JArr items => Normal (JNum (Double.of_Z (Z.of_nat (List.length items))))
  | JStr s => Normal (JNum (Double.of_Z (Z.of_nat (String.length s))))
  | JObj members => Normal (lookup "length" members)
  | JBool _ | JNum _ => Normal JUndefined
  end.

(** [key={quakesJson.length}] of the GeoJSON layer, line 192, evaluated
    when [Map] renders. *)
Definition geoJsonKey (s : MapState) : completion JSValue :=
  length_of (quakesJson s).

(** The combination of filters the magnitude buttons are disabled for. *)
Definition conflict (s : MapState) : Prop :=
  timespan s = "month" /\ (minMag s = "all" \/ minMag s = "1.0").

(** The keys of the buttons of a row that are drawn as selected
    ([variant="contained"], lines 121 and 145). *)
Definition highlighted (buttons : list Button) : list string :=
  map key (filter (fun b => variant b =? "contained") buttons).

(** The values [const [a, b, c] = v] accepts. *)
Definition iterable (v : JSValue) : bool :=
  match v with
  | JArr _ | JStr _ => true
  | _ => false
  end.

(** [feature.geometry.coordinates]. *)
Definition coordinates_of (feature : JSValue) : completion JSValue :=
  bind (prop feature "geometry") (fun geometry => prop geometry "coordinates").

(** The feed URL of a pair of options, written out. *)
Definition feed (magnitude intervall : string) : string :=
  "https://earthquake.usgs.gov/earthquakes/feed/v1.0/summary//"
  ++ magnitude ++ "_" ++ intervall ++ ".geojson".

(** The page a request in flight is taken from when it settles. *)
Definition settling (n : nat) (p : Page) : Page :=
  {| view := view p; console := console p; fetched := fetched p;
     inflight := remove_nth n (inflight p) |}.

(** The number of clicks among the events. *)
Definition clicks (events : list Event) : nat :=
  List.length
    (filter (fun e => match e with Settle _ _ => false | _ => true end) events).

(** A response with the given events. *)
Definition responding (events : list JSValue) : FetchOutcome :=
  Resolves {| ok := true; json := Normal (JObj [("features", JArr events)]) |}.

(** The user has switched from the week to the day, and the request for
    the day has been answered before the one for the week. *)
Definition dayFirst : Page :=
  run mount [ ClickTimespan "day";
              Settle 1 (responding [JObj [("id", JStr "today")]]) ].

(* ================================================================== *)
(** ** Marker radius *)

Section RealRadius.
Open Scope R_scope.

Lemma lit_10 : Q2R 10 = 10.
Proof. unfold Q2R; simpl; lra. Qed.

Lemma lit_1 : Q2R 1 = 1.
Proof. unfold Q2R; simpl; lra. Qed.

Lemma lit_2_5 : Q2R (5 # 2) = 2.5.
Proof. unfold Q2R; simpl; lra. Qed.

(** Over the reals the code is the formula with its constants. *)
Lemma getMarkerRadius_real (m : R) :
  getMarkerRadius m = sqrt ((10 * Rpower 10 ((m - 1) / 2.5)) / PI).
Proof.
  unfold getMarkerRadius; simpl.
  rewrite lit_10, lit_1, lit_2_5. reflexivity.
Qed.

Lemma area_pos (m : R) : 0 < (10 * Rpower 10 ((m - 1) / 2.5)) / PI.
Proof.
  apply Rdiv_lt_0_compat; [ | apply PI_RGT_0 ].
  apply Rmult_lt_0_compat; [ lra | ].
  unfold Rpower. apply exp_pos.
Qed.

Lemma getMarkerRadius_real_pos (m : R) : 0 < getMarkerRadius m.
Proof. rewrite getMarkerRadius_real. apply sqrt_lt_R0, area_pos. Qed.

Lemma getMarkerRadius_real_lt (m1 m2 : R) :
  m1 < m2 -> getMarkerRadius m1 < getMarkerRadius m2.
Proof.
  intros Hlt. rewrite !getMarkerRadius_real.
  apply sqrt_lt_1_alt. split; [ apply Rlt_le, area_pos | ].
  apply Rmult_lt_compat_r; [ apply Rinv_0_lt_compat, PI_RGT_0 | ].
  apply Rmult_lt_compat_l; [ lra | ].
  apply Rpower_lt; lra.
Qed.
End RealRadius.

Section DoubleRadius.
Open Scope float_scope.

(** On doubles the code is the formula too, whatever [Math.pow]
    approximates. *)
Lemma markerRadius_double (approx : float -> float -> float) (m : float) :
  Double.markerRadius approx m
  = PrimFloat.sqrt ((10 * Double.pow approx 10 ((m - 1) / 2.5)) / Double.PI).
Proof. reflexivity. Qed.

Lemma markerRadius_double_1 (approx : float -> float -> float) :
  Double.markerRadius approx 1 = PrimFloat.sqrt (10 / Double.PI).
Proof. reflexivity. Qed.

(** No double is below itself. *)
Lemma ltb_irrefl (x : float) : (x <? x) = false.
Proof.
  rewrite ltb_spec. unfold SFltb, SFcompare.
  destruct (Prim2SF x) as [ sg | sg | | sg m e ]; try reflexivity.
  - destruct sg; reflexivity.
  - rewrite Z.compare_refl, Pos.compare_cont_refl.
    destruct sg; reflexivity.
Qed.

(** [0] and [2^-60] are different magnitudes, yet [m - 1] rounds to [-1]
    for both, so they get the same radius. *)
Lemma markerRadius_collision (approx : float -> float -> float) :
  Double.markerRadius approx 0 = Double.markerRadius approx 0x1p-60.
Proof. reflexivity. Qed.
End DoubleRadius.

(** C1. The marker radius function returns [sqrt((10 * 10^((m-1)/2.5)) / pi)]
    for every magnitude [m], in whatever arithmetic it is run: over the real
    numbers and over doubles it is that formula with the constants 10, 2.5
    and pi, and [radius(1) = sqrt(10/pi)] in both. No magnitude is clamped:
    the radii of -1, 0 and 1 are three different values of the formula. *)
Theorem getMarkerRadius_formula :
  (forall (num : Type) (A : JSArith num) (m : num),
      getMarkerRadius m = radius_formula m) /\
  (forall m : R,
      getMarkerRadius m = sqrt ((10 * Rpower 10 ((m - 1) / 2.5)) / PI))%R /\
  (getMarkerRadius 1 = sqrt (10 / PI))%R /\
  (forall (approx : float -> float -> float) (m : float),
      Double.markerRadius approx m
      = PrimFloat.sqrt
          ((10 * Double.pow approx 10 ((m - 1) / 2.5)) / Double.PI))%float /\
  (forall approx : float -> float -> float,
      Double.markerRadius approx 1 = PrimFloat.sqrt (10 / Double.PI))%float /\
  (getMarkerRadius (-1) < getMarkerRadius 0
   /\ getMarkerRadius 0 < getMarkerRadius 1)%R.
Proof.
  split; [ reflexivity | ].
  split; [ exact getMarkerRadius_real | ].
  split.
  { rewrite getMarkerRadius_real.
    replace ((1 - 1) / 2.5)%R with 0%R by lra.
    rewrite Rpower_O by lra. f_equal. lra. }
  split; [ exact markerRadius_double | ].
  split; [ exact markerRadius_double_1 | ].
  split; apply getMarkerRadius_real_lt; lra.
Qed.

(** C5, as the specification states it, fails on doubles: whatever
    [Math.pow] approximates, the radius is not strictly increasing on finite
    doubles, since the magnitudes [0 < 2^-60] get one radius. *)
Lemma markerRadius_not_strictly_increasing :
  ~ exists approx : float -> float -> float, Double.strictly_increasing approx.
Proof.
  intros [approx Hinc].
  assert (Hlt : Double.lt (Double.markerRadius approx 0)
                          (Double.markerRadius approx 0x1p-60)).
  { apply Hinc; reflexivity. }
  unfold Double.lt in Hlt.
  rewrite <- markerRadius_collision, ltb_irrefl in Hlt.
  discriminate Hlt.
Qed.

(** C5, amended. Read over the real numbers the marker radius is strictly
    increasing: [m1 < m2] gives [radius(m1) < radius(m2)]. *)
Theorem getMarkerRadius_strictly_increasing (m1 m2 : R) :
  (m1 < m2)%R -> (getMarkerRadius m1 < getMarkerRadius m2)%R.
Proof.
  intros Hlt. rewrite !getMarkerRadius_real.
  (* the square root, the division by pi and the factor 10 keep the order *)
  apply sqrt_lt_1_alt. split; [ apply Rlt_le, area_pos | ].
  apply Rmult_lt_compat_r; [ apply Rinv_0_lt_compat, PI_RGT_0 | ].
  apply Rmult_lt_compat_l; [ lra | ].
  (* and so does the power of 10, whose exponent grows with the magnitude *)
  apply Rpower_lt; [ lra | ].
  apply Rmult_lt_compat_r; lra.
Qed.

Lemma getMarkerRadius_strictly_increasing_witness :
  (1 < 2)%R /\ (getMarkerRadius 1 < getMarkerRadius 2)%R.
Proof.
  split; [ lra | apply (getMarkerRadius_strictly_increasing 1 2); lra ].
Defined.

(* ================================================================== *)
(** ** The fetch *)

(** The call as a whole: what it does in each of the four ways it can go. *)
Lemma fetchQuakeData_unfold (outcome : FetchOutcome) (url : string) (p : Page) :
  fetchQuakeData outcome url p =
  match outcome with
  | Rejects reason => (Normal tt, logged reason p)
  | Resolves resp =>
      if ok resp then
        match bind (json resp) (fun data => prop data "features") with
        | Normal features => (Normal tt, withView (setQuakesJson features (view p)) p)
        | Throw e => (Normal tt, logged e p)
        end
      else (Normal tt, logged (Error ("Error fetching data from " ++ url)%string) p)
  end.
Proof.
  unfold fetchQuakeData, try_catch, seq, await_fetch, throw, ret, lift.
  destruct outcome as [ reason | [ isok body ] ]; simpl; [ reflexivity | ].
  destruct isok; simpl; [ | reflexivity ].
  destruct body as [ data | e ]; simpl; [ | reflexivity ].
  destruct (prop data "features"); reflexivity.
Qed.

(** No exception leaves [fetchQuakeData], however the request goes. *)
Lemma fetchQuakeData_returns (outcome : FetchOutcome) (url : string) (p : Page) :
  fst (fetchQuakeData outcome url p) = Normal tt.
Proof.
  rewrite fetchQuakeData_unfold.
  destruct outcome as [ reason | resp ]; [ reflexivity | ].
  destruct (ok resp); [ | reflexivity ].
  destruct (bind (json resp) _); reflexivity.
Qed.

(** The fetch writes neither filter and calls [fetch] no further. *)
Lemma fetchQuakeData_filters (outcome : FetchOutcome) (url : string) (p : Page) :
  let p' := snd (fetchQuakeData outcome url p) in
  minMag (view p') = minMag (view p) /\
  timespan (view p') = timespan (view p) /\
  fetched p' = fetched p /\ inflight p' = inflight p.
Proof.
  rewrite fetchQuakeData_unfold.
  destruct outcome as [ reason | resp ]; [ simpl; auto | ].
  destruct (ok resp); [ | simpl; auto ].
  destruct (bind (json resp) _); simpl; auto.
Qed.

(** A body that is JSON but has no [features] member is no failure for the
    code: the collection becomes [undefined]. *)
Lemma fetchQuakeData_no_features (url : string) (p : Page) :
  fetchQuakeData (Resolves {| ok := true; json := Normal (JObj []) |}) url p
  = (Normal tt, withView (setQuakesJson JUndefined (view p)) p).
Proof. reflexivity. Qed.

(** C4. On every fetch failure (transport error, non-success status,
    malformed body) the failure is caught and logged: [fetchQuakeData]
    returns normally, the console has one more entry and the component
    state, with its event collection, is what it was. *)
Theorem fetch_failure_keeps_state
  (outcome : FetchOutcome) (url : string) (p : Page) :
  fetch_failed outcome ->
  exists e : exn,
    fetchQuakeData outcome url p = (Normal tt, logged e p) /\
    view (logged e p) = view p /\
    quakesJson (view (logged e p)) = quakesJson (view p).
Proof.
  intros Hfail. rewrite fetchQuakeData_unfold.
  destruct outcome as [ reason | resp ]; simpl in Hfail.
  - exists reason. auto.
  - destruct (ok resp) eqn:Hok.
    + destruct Hfail as [ Hfalse | [ e He ] ]; [ discriminate Hfalse | ].
      rewrite He. exists e. auto.
    + eexists. split; [ reflexivity | auto ].
Qed.

Lemma fetch_failure_keeps_state_witness :
  fetch_failed (Resolves {| ok := false; json := Throw (SyntaxError "Unexpected token") |}) /\
  exists e : exn,
    fetchQuakeData
      (Resolves {| ok := false; json := Throw (SyntaxError "Unexpected token") |})
      (feedUrl initialState) (showing (JArr [JObj []]))
    = (Normal tt, logged e (showing (JArr [JObj []]))) /\
    view (logged e (showing (JArr [JObj []]))) = view (showing (JArr [JObj []])) /\
    quakesJson (view (logged e (showing (JArr [JObj []]))))
    = quakesJson (view (showing (JArr [JObj []]))).
Proof.
  assert (Hfail : fetch_failed
            (Resolves {| ok := false;
                         json := Throw (SyntaxError "Unexpected token") |})).
  { simpl. left. reflexivity. }
  split; [ exact Hfail | ].
  exact (fetch_failure_keeps_state _ (feedUrl initialState)
           (showing (JArr [JObj []])) Hfail).
Defined.

(** C8. On every successful fetch the event collection becomes the
    [features] of the response, whatever it was before; a response with
    [features = []] makes it empty. *)
Theorem fetch_success_replaces
  (outcome : FetchOutcome) (features : JSValue) (url : string) (p : Page) :
  fetch_succeeded outcome features ->
  fetchQuakeData outcome url p
  = (Normal tt, withView (setQuakesJson features (view p)) p) /\
  quakesJson (view (snd (fetchQuakeData outcome url p))) = features /\
  console (snd (fetchQuakeData outcome url p)) = console p.
Proof.
  intros Hok. rewrite fetchQuakeData_unfold.
  destruct outcome as [ reason | resp ]; simpl in Hok; [ contradiction | ].
  destruct Hok as [ Hstatus Hbody ]. rewrite Hstatus, Hbody. auto.
Qed.

Lemma fetch_success_replaces_witness :
  fetch_succeeded
    (Resolves {| ok := true; json := Normal (JObj [("features", JArr [])]) |})
    (JArr []) /\
  fetchQuakeData
    (Resolves {| ok := true; json := Normal (JObj [("features", JArr [])]) |})
    (feedUrl initialState) (showing (JArr [JObj []]))
  = (Normal tt,
     withView (setQuakesJson (JArr []) (view (showing (JArr [JObj []]))))
              (showing (JArr [JObj []]))) /\
  quakesJson
    (view (snd (fetchQuakeData
                  (Resolves {| ok := true;
                               json := Normal (JObj [("features", JArr [])]) |})
                  (feedUrl initialState) (showing (JArr [JObj []])))))
  = JArr [] /\
  console
    (snd (fetchQuakeData
            (Resolves {| ok := true;
                         json := Normal (JObj [("features", JArr [])]) |})
            (feedUrl initialState) (showing (JArr [JObj []]))))
  = console (showing (JArr [JObj []])).
Proof.
  assert (Hok : fetch_succeeded
            (Resolves {| ok := true;
                         json := Normal (JObj [("features", JArr [])]) |})
            (JArr [])).
  { simpl. split; reflexivity. }
  split; [ exact Hok | ].
  exact (fetch_success_replaces _ (JArr []) (feedUrl initialState)
           (showing (JArr [JObj []])) Hok).
Defined.

(* ================================================================== *)
(** ** The filters *)

(** A click writes at most the filter of its own row of buttons. *)
Lemma click_magnitude (k : string) (s : MapState) :
  quakesJson (click (magnitudeButtons s) k s) = quakesJson s /\
  timespan (click (magnitudeButtons s) k s) = timespan s.
Proof.
  unfold click, press, magnitudeButtons. simpl.
  repeat match goal with
         | |- context [ if ?c then _ else _ ] => destruct c; simpl
         end; auto.
Qed.

Lemma click_timespan (k : string) (s : MapState) :
  quakesJson (click (timespanButtons s) k s) = quakesJson s /\
  minMag (click (timespanButtons s) k s) = minMag s.
Proof.
  unfold click, press, timespanButtons. simpl.
  repeat match goal with
         | |- context [ if ?c then _ else _ ] => destruct c; simpl
         end; auto.
Qed.

Lemma depsChanged_true (before after : MapState) :
  minMag after <> minMag before \/ timespan after <> timespan before ->
  depsChanged before after = true.
Proof.
  intros Hdiff. unfold depsChanged.
  destruct (String.eqb_spec (minMag before) (minMag after)) as [ Hm | Hm ];
    [ | reflexivity ].
  destruct (String.eqb_spec (timespan before) (timespan after)) as [ Ht | Ht ];
    [ | reflexivity ].
  destruct Hdiff as [ Hd | Hd ]; exfalso; apply Hd; congruence.
Qed.

Lemma depsChanged_false (before after : MapState) :
  minMag after = minMag before -> timespan after = timespan before ->
  depsChanged before after = false.
Proof.
  intros Hm Ht. unfold depsChanged.
  rewrite Hm, Ht, !String.eqb_refl. reflexivity.
Qed.

(** A render never touches the component state. *)
Lemma rerender_view (before : MapState) (p : Page) :
  view (rerender before p) = view p.
Proof. unfold rerender. destruct (depsChanged before (view p)); reflexivity. Qed.

(** What a step does to the list of requests, by whether a filter changed. *)
Lemma step_fetched (p : Page) (e : Event) :
  fetched (step p e)
  = (fetched p ++
     if depsChanged (view p) (view (step p e))
     then [feedUrl (view (step p e))] else [])%list.
Proof.
  destruct e as [ k | k | n outcome ]; simpl.
  - rewrite rerender_view. unfold rerender. simpl.
    destruct (depsChanged (view p) _); simpl;
      [ reflexivity | symmetry; apply app_nil_r ].
  - rewrite rerender_view. unfold rerender. simpl.
    destruct (depsChanged (view p) _); simpl;
      [ reflexivity | symmetry; apply app_nil_r ].
  - destruct (nth_error (inflight p) n) as [ url | ].
    + rewrite rerender_view.
      pose proof (fetchQuakeData_filters outcome url
        {| view := view p; console := console p; fetched := fetched p;
           inflight := remove_nth n (inflight p) |}) as Hf.
      simpl in Hf. destruct Hf as (Hm & Ht & Hfe & _).
      unfold rerender. rewrite (depsChanged_false _ _ Hm Ht).
      rewrite Hfe. symmetry; apply app_nil_r.
    + rewrite depsChanged_false by reflexivity. symmetry; apply app_nil_r.
Qed.

(** Without a change of a filter no request is made. *)
Lemma no_change_no_fetch (p : Page) (e : Event) :
  minMag (view (step p e)) = minMag (view p) ->
  timespan (view (step p e)) = timespan (view p) ->
  fetched (step p e) = fetched p.
Proof.
  intros Hm Ht. rewrite step_fetched, (depsChanged_false _ _ Hm Ht).
  apply app_nil_r.
Qed.

(** C2. Every change of [minMag] or [timespan] triggers exactly one new
    fetch: the step that changes a filter adds one URL to the requests made,
    and that URL is [BASE_URL/{minMag}_{timespan}.geojson] with the new
    values. *)
Theorem filter_change_fetches_once (p : Page) (e : Event) :
  minMag (view (step p e)) <> minMag (view p) \/
  timespan (view (step p e)) <> timespan (view p) ->
  fetched (step p e)
  = (fetched p ++
     [(BASE_URL ++ "/" ++ minMag (view (step p e)) ++ "_"
                ++ timespan (view (step p e)) ++ ".geojson")%string])%list.
Proof.
  intros Hdiff. rewrite step_fetched, (depsChanged_true _ _ Hdiff).
  reflexivity.
Qed.

Lemma filter_change_fetches_once_witness :
  (minMag (view (step mount (ClickTimespan "day"))) <> minMag (view mount) \/
   timespan (view (step mount (ClickTimespan "day"))) <> timespan (view mount)) /\
  fetched (step mount (ClickTimespan "day"))
  = (fetched mount ++
     ["https://earthquake.usgs.gov/earthquakes/feed/v1.0/summary//2.5_day.geojson"])%list.
Proof.
  assert (Hdiff :
    minMag (view (step mount (ClickTimespan "day"))) <> minMag (view mount) \/
    timespan (view (step mount (ClickTimespan "day"))) <> timespan (view mount)).
  { right. simpl. discriminate. }
  split; [ exact Hdiff | ].
  exact (filter_change_fetches_once mount (ClickTimespan "day") Hdiff).
Defined.

(** One button of a row: its [disabled] flag has been computed. *)
Ltac button_case :=
  simpl; split;
  [ split;
    [ intros H; first [ discriminate H | split; [ assumption | auto ] ]
    | intros [ Ht [ Hk | Hk ] ];
      first [ discriminate Hk | contradiction | reflexivity ] ]
  | intros H; first [ discriminate H | reflexivity ] ].

(** C9. The magnitude buttons are the five options, and a magnitude button
    is disabled exactly when the time window is "month" and the button is
    "all" or "1.0"; a button that is not disabled selects its magnitude.
    The four time buttons are never disabled and select their window. *)
Theorem buttons_disabled (s : MapState) :
  map key (magnitudeButtons s) = ["all"; "1.0"; "2.5"; "4.5"; "significant"] /\
  Forall (fun b =>
            (disabled b = true <->
             timespan s = "month" /\ (key b = "all" \/ key b = "1.0")) /\
            (disabled b = false -> press b s = setMinMag (key b) s))
         (magnitudeButtons s) /\
  map key (timespanButtons s) = ["hour"; "day"; "week"; "month"] /\
  Forall (fun b => disabled b = false /\ press b s = setTimespan (key b) s)
         (timespanButtons s).
Proof.
  split; [ reflexivity | ].
  split.
  - unfold magnitudeButtons, press. simpl.
    destruct (String.eqb_spec (timespan s) "month") as [ Hmonth | Hmonth ];
      repeat (apply Forall_cons; [ button_case | ]); apply Forall_nil.
  - split; [ reflexivity | ].
    unfold timespanButtons. simpl. repeat constructor.
Qed.

(** While the window is "month", a click on "all" or "1.0" changes
    nothing. *)
Lemma month_guards_magnitude (s : MapState) (k : string) :
  timespan s = "month" -> k = "all" \/ k = "1.0" ->
  click (magnitudeButtons s) k s = s.
Proof.
  intros Hmonth [ -> | -> ]; unfold click, press; simpl;
    rewrite Hmonth; reflexivity.
Qed.

(** C3. The combination the buttons are meant to exclude is reached from
    the default state in two clicks, "all" and then "month", and the feed
    is asked for [all_month.geojson]. *)
Theorem all_month_reachable :
  reachable (run mount [ClickMagnitude "all"; ClickTimespan "month"]) /\
  timespan (view (run mount [ClickMagnitude "all"; ClickTimespan "month"]))
  = "month" /\
  minMag (view (run mount [ClickMagnitude "all"; ClickTimespan "month"]))
  = "all" /\
  fetched (run mount [ClickMagnitude "all"; ClickTimespan "month"])
  = [ "https://earthquake.usgs.gov/earthquakes/feed/v1.0/summary//2.5_week.geojson";
      "https://earthquake.usgs.gov/earthquakes/feed/v1.0/summary//all_week.geojson";
      "https://earthquake.usgs.gov/earthquakes/feed/v1.0/summary//all_month.geojson" ].
Proof.
  split; [ exists [ClickMagnitude "all"; ClickTimespan "month"]; reflexivity | ].
  repeat split.
Qed.

(* ================================================================== *)
(** ** Popups *)

Lemma prefix_app (x s : string) : String.prefix x (x ++ s) = true.
Proof.
  induction x as [ | c x IH ]; simpl; [ destruct s; reflexivity | ].
  destruct (Ascii.ascii_dec c c) as [ _ | Hc ]; [ exact IH | contradiction ].
Qed.

Lemma includes_prefix (x s : string) :
  String.prefix x s = true -> includes x s = true.
Proof. intros Hp. destruct s; cbn [includes]; rewrite Hp; reflexivity. Qed.

Lemma includes_app_r (x a s : string) :
  includes x s = true -> includes x (a ++ s) = true.
Proof.
  intros Hs. induction a as [ | c a IH ]; [ exact Hs | ].
  change (String c a ++ s) with (String c (a ++ s)). cbn [includes].
  rewrite IH. destruct (String.prefix x (String c (a ++ s))); reflexivity.
Qed.

Lemma ToBoolean_JStr (s : string) : ToBoolean (JStr s) = true <-> s <> "".
Proof.
  simpl. destruct (String.eqb_spec s ""); simpl; split; intros H;
    congruence.
Qed.

(** The guard read on the data: for a feature whose [properties] is an
    object, it is the truthiness of the [place] member. *)
Lemma place_truthy_object (fm pm : list (string * JSValue)) :
  lookup "properties" fm = JObj pm ->
  place_truthy (JObj fm) = ToBoolean (lookup "place" pm).
Proof. intros Hp. unfold place_truthy. simpl. rewrite Hp. reflexivity. Qed.

(** What [onEachFeature] does, by its guard. *)
Lemma onEachFeature_unfold (host : Host) (feature : JSValue) (layer : CircleMarker) :
  onEachFeature host feature layer =
  match prop feature "properties" with
  | Throw e => Throw e
  | Normal _ =>
      if place_truthy feature
      then bind (buildPopup host feature)
                (fun html => Normal (bindPopup html layer))
      else Normal layer
  end.
Proof.
  unfold onEachFeature, place_truthy, buildPopup.
  destruct (prop feature "properties") as [ ps | e ] eqn:Hps; simpl;
    [ | reflexivity ].
  destruct (ToBoolean ps) eqn:Hb; simpl; [ | reflexivity ].
  destruct (prop ps "place") as [ pl | e ] eqn:Hpl; simpl.
  - destruct (ToBoolean pl); [ | reflexivity ].
    destruct (Popup (spread feature)); reflexivity.
  - destruct ps; simpl in Hb, Hpl; discriminate.
Qed.





(** C10. The guard looks at [properties.place] only: for a feature whose
    place is truthy and whose [geometry] member is missing, reading
    [geometry.coordinates] in [Popup] throws a TypeError, which leaves
    [onEachFeature]; the popup step is not defined on every feature. *)
Theorem popup_without_geometry_throws
  (host : Host) (fm pm : list (string * JSValue)) (layer : CircleMarker) :
  lookup "properties" fm = JObj pm ->
  ToBoolean (lookup "place" pm) = true ->
  lookup "geometry" fm = JUndefined ->
  onEachFeature host (JObj fm) layer
  = Throw (TypeError "Cannot read properties of undefined (reading 'coordinates')").
Proof.
  intros Hp Hplace Hgeo. rewrite onEachFeature_unfold. simpl.
  rewrite (place_truthy_object fm pm Hp), Hplace.
  unfold buildPopup, Popup. simpl. rewrite Hp, Hgeo. reflexivity.
Qed.

Lemma popup_without_geometry_throws_witness :
  place_present (JObj shapeless) = true /\
  onEachFeature example_host (JObj shapeless) somewhere
  = Throw (TypeError "Cannot read properties of undefined (reading 'coordinates')").
Proof.
  split; [ reflexivity | ].
  apply (popup_without_geometry_throws example_host shapeless
           [("mag", JNum 4.2); ("place", JStr "10km N of Testville")]);
    reflexivity.
Defined.

Lemma append_nil_r (s : string) : s ++ "" = s.
Proof. induction s as [ | c s IH ]; simpl; [ | rewrite IH ]; reflexivity. Qed.

Lemma append_assoc (a b c : string) : (a ++ b) ++ c = a ++ (b ++ c).
Proof. induction a as [ | x a IH ]; simpl; [ | rewrite IH ]; reflexivity. Qed.

(** Two or three adjacent pieces at the head of a text. *)
Lemma includes_head2 (a b r : string) : includes (a ++ b) (a ++ b ++ r) = true.
Proof. rewrite <- append_assoc. apply includes_prefix, prefix_app. Qed.

Lemma includes_head3 (a b c r : string) :
  includes (a ++ b ++ c) (a ++ b ++ c ++ r) = true.
Proof.
  rewrite <- (append_assoc b c r), <- (append_assoc a (b ++ c) r).
  apply includes_prefix, prefix_app.
Qed.

(** The markup [onEachFeature] binds for an event record: a feature whose
    place, type and URL are strings and whose magnitude and coordinates
    are numbers. *)
Lemma popup_markup
  (host : Host) (fm pm gm : list (string * JSValue))
  (lon lat depth mag : float) (rest : list JSValue)
  (place type url : string) (layer : CircleMarker) :
  lookup "properties" fm = JObj pm ->
  lookup "geometry" fm = JObj gm ->
  lookup "coordinates" gm = JArr (JNum lon :: JNum lat :: JNum depth :: rest) ->
  lookup "place" pm = JStr place -> place <> "" ->
  lookup "mag" pm = JNum mag ->
  lookup "type" pm = JStr type ->
  lookup "url" pm = JStr url ->
  onEachFeature host (JObj fm) layer
  = Normal
      (bindPopup
         [ MElem "Fragment" []
             [ MElem "Typography" [("variant", JStr "h2")] [MText place];
               MText " ";
               MElem "p" []
                 [ MElem "span" [("style", JObj [("fontWeight", JStr "bold")])]
                     [MText "MAGNITUDE"];
                   MText ": "; MText (Number_toString host mag);
                   MElem "br" [] [];
                   MElem "span" [("style", JObj [("fontWeight", JStr "bold")])]
                     [MText "DEPTH"];
                   MText ": "; MText (Number_toString host depth);
                   MText " km"; MElem "br" [] [];
                   MElem "span" [("style", JObj [("fontWeight", JStr "bold")])]
                     [MText "TYPE"];
                   MText ": "; MText type; MElem "br" [] [];
                   MElem "span" [("style", JObj [("fontWeight", JStr "bold")])]
                     [MText "Lon/Lat"];
                   MText ": "; MText (Number_toString host lon);
                   MText ", "; MText (Number_toString host lat) ];
               MElem "Typography" [("variant", JStr "h3")]
                 [ MElem "Link"
                     [ ("variant", JStr "h3"); ("target", JStr "_blank");
                       ("href", JStr url) ]
                     [MText "More info"] ] ] ]
         layer).
Proof.
  intros Hp Hg Hc Hplace Hne Hmag Htype Hurl.
  assert (Htruthy : place_truthy (JObj fm) = true).
  { rewrite (place_truthy_object fm pm Hp), Hplace. apply ToBoolean_JStr, Hne. }
  rewrite onEachFeature_unfold. simpl. rewrite Htruthy.
  unfold buildPopup, Popup. simpl. rewrite Hp, Hg. simpl. rewrite Hc. simpl.
  rewrite Hplace, Hmag, Htype, Hurl. reflexivity.
Qed.

(** C7. For an event record with a place, the popup bound by
    [onEachFeature] has the place as its title (the h2 heading), a body
    with the magnitude, the depth followed by " km", the type and the
    longitude and latitude, and one link, to the record's URL, with target
    [_blank]; the text of the popup includes each of these values. *)
Theorem popup_content
  (host : Host) (fm pm gm : list (string * JSValue))
  (lon lat depth mag : float) (rest : list JSValue)
  (place type url : string) (layer : CircleMarker) :
  lookup "properties" fm = JObj pm ->
  lookup "geometry" fm = JObj gm ->
  lookup "coordinates" gm = JArr (JNum lon :: JNum lat :: JNum depth :: rest) ->
  lookup "place" pm = JStr place -> place <> "" ->
  lookup "mag" pm = JNum mag ->
  lookup "type" pm = JStr type ->
  lookup "url" pm = JStr url ->
  let content := boundPopup (onEachFeature host (JObj fm) layer) in
  let toStr := Number_toString host in
  onEachFeature host (JObj fm) layer = Normal (bindPopup content layer) /\
  map (fun t => (attribute "variant" t, textContent t))
      (elementsOf "Typography" content)
  = [ (JStr "h2", place); (JStr "h3", "More info") ] /\
  map textContent (elementsOf "p" content)
  = [ "MAGNITUDE: " ++ toStr mag ++ "DEPTH: " ++ toStr depth ++ " km"
      ++ "TYPE: " ++ type ++ "Lon/Lat: " ++ toStr lon ++ ", " ++ toStr lat ] /\
  map (fun a => (attribute "href" a, attribute "target" a, textContent a))
      (elementsOf "Link" content)
  = [ (JStr url, JStr "_blank", "More info") ] /\
  textOf content
  = place ++ " " ++ "MAGNITUDE: " ++ toStr mag ++ "DEPTH: " ++ toStr depth
    ++ " km" ++ "TYPE: " ++ type ++ "Lon/Lat: " ++ toStr lon ++ ", "
    ++ toStr lat ++ "More info" /\
  includes place (textOf content) = true /\
  includes (toStr mag) (textOf content) = true /\
  includes (toStr depth ++ " km") (textOf content) = true /\
  includes type (textOf content) = true /\
  includes (toStr lon ++ ", " ++ toStr lat) (textOf content) = true.
Proof.
  intros Hp Hg Hc Hplace Hne Hmag Htype Hurl content toStr.
  assert (Htext : textOf content
    = place ++ " " ++ "MAGNITUDE: " ++ toStr mag ++ "DEPTH: " ++ toStr depth
      ++ " km" ++ "TYPE: " ++ type ++ "Lon/Lat: " ++ toStr lon ++ ", "
      ++ toStr lat ++ "More info").
  { subst content.
    rewrite (popup_markup host fm pm gm lon lat depth mag rest place type url
               layer Hp Hg Hc Hplace Hne Hmag Htype Hurl).
    simpl. rewrite !append_nil_r.
    repeat (rewrite append_assoc; simpl). reflexivity. }
  split; [ | split; [ | split; [ | split; [ | split; [ exact Htext | ] ] ] ] ].
  - subst content.
    rewrite (popup_markup host fm pm gm lon lat depth mag rest place type url
               layer Hp Hg Hc Hplace Hne Hmag Htype Hurl).
    reflexivity.
  - subst content.
    rewrite (popup_markup host fm pm gm lon lat depth mag rest place type url
               layer Hp Hg Hc Hplace Hne Hmag Htype Hurl).
    simpl. rewrite append_nil_r. reflexivity.
  - subst content.
    rewrite (popup_markup host fm pm gm lon lat depth mag rest place type url
               layer Hp Hg Hc Hplace Hne Hmag Htype Hurl).
    simpl. rewrite append_nil_r. reflexivity.
  - subst content.
    rewrite (popup_markup host fm pm gm lon lat depth mag rest place type url
               layer Hp Hg Hc Hplace Hne Hmag Htype Hurl).
    reflexivity.
  - rewrite Htext. repeat split.
    + apply includes_prefix, prefix_app.
    + do 3 apply includes_app_r. apply includes_prefix, prefix_app.
    + do 5 apply includes_app_r. apply includes_head2.
    + do 8 apply includes_app_r. apply includes_prefix, prefix_app.
    + do 10 apply includes_app_r. apply includes_head3.
Qed.

(** The example of the specification: on a host that prints 4.2 and 8.3
    as they are written, the popup of the Testville event includes
    "Testville", "4.2", "8.3 km" and "earthquake" and links to http://x. *)
Lemma popup_content_witness :
  lookup "place" [ ("mag", JNum 4.2); ("place", JStr "10km N of Testville");
                   ("type", JStr "earthquake"); ("url", JStr "http://x") ]
  = JStr "10km N of Testville" /\
  "10km N of Testville" <> "" /\
  onEachFeature example_host (JObj testville) somewhere
  = Normal (bindPopup
              (boundPopup (onEachFeature example_host (JObj testville) somewhere))
              somewhere) /\
  textOf (boundPopup (onEachFeature example_host (JObj testville) somewhere))
  = "10km N of Testville MAGNITUDE: 4.2DEPTH: 8.3 kmTYPE: earthquakeLon/Lat: -120.1, 35.2More info" /\
  includes "Testville"
    (textOf (boundPopup (onEachFeature example_host (JObj testville) somewhere)))
  = true /\
  includes "4.2"
    (textOf (boundPopup (onEachFeature example_host (JObj testville) somewhere)))
  = true /\
  includes "8.3 km"
    (textOf (boundPopup (onEachFeature example_host (JObj testville) somewhere)))
  = true /\
  includes "earthquake"
    (textOf (boundPopup (onEachFeature example_host (JObj testville) somewhere)))
  = true /\
  map (fun a => (attribute "href" a, attribute "target" a, textContent a))
      (elementsOf "Link"
         (boundPopup (onEachFeature example_host (JObj testville) somewhere)))
  = [ (JStr "http://x", JStr "_blank", "More info") ].
Proof.
  assert (Hne : "10km N of Testville" <> "") by discriminate.
  destruct (popup_content example_host testville
              [ ("mag", JNum 4.2); ("place", JStr "10km N of Testville");
                ("type", JStr "earthquake"); ("url", JStr "http://x") ]
              [ ("coordinates", JArr [JNum (-120.1); JNum 35.2; JNum 8.3]) ]
              (-120.1) 35.2 8.3 4.2 [] "10km N of Testville" "earthquake"
              "http://x" somewhere
              eq_refl eq_refl eq_refl eq_refl Hne eq_refl eq_refl eq_refl)
    as (Hbound & _ & _ & Hlink & Htext & _ & Hmag & Hdepth & Htype & _).
  split; [ reflexivity | ].
  split; [ exact Hne | ].
  split; [ exact Hbound | ].
  split; [ exact Htext | ].
  split; [ reflexivity | ].
  split; [ exact Hmag | ].
  split; [ exact Hdepth | ].
  split; [ exact Htype | exact Hlink ].
Defined.

(* ================================================================== *)
(** ** Further properties of the filters and the requests *)

(** What holds after mounting and is kept by every step holds on every
    reachable page. *)
Lemma reachable_invariant (P : Page -> Prop) :
  P mount -> (forall p e, P p -> P (step p e)) ->
  forall p, reachable p -> P p.
Proof.
  intros Hmount Hstep p [ events <- ]. unfold run.
  generalize mount Hmount. induction events as [ | e events IH ];
    intros p0 Hp0; simpl; [ exact Hp0 | ].
  apply IH, Hstep, Hp0.
Qed.

Lemma reachable_mount : reachable mount.
Proof. exists []. reflexivity. Qed.

Lemma reachable_step (p : Page) (e : Event) :
  reachable p -> reachable (step p e).
Proof.
  intros [ events <- ]. exists (events ++ [e])%list.
  unfold run. rewrite fold_left_app. reflexivity.
Qed.

(** A click on a magnitude button selects the magnitude, unless there is
    no such button or the button is disabled. *)
Lemma click_magnitude_spec (k : string) (s : MapState) :
  click (magnitudeButtons s) k s
  = if existsb (fun m => m =? k) magnitudes
       && negb ((timespan s =? "month") && ((k =? "all") || (k =? "1.0")))
    then setMinMag k s else s.
Proof.
  unfold click, press, magnitudeButtons, magnitudes.
  cbn -[String.eqb].
  rewrite (String.eqb_sym k "all"), (String.eqb_sym k "1.0").
  destruct (String.eqb_spec "all" k) as [ <- | Hall ].
  { cbn -[String.eqb]. destruct (timespan s =? "month"); reflexivity. }
  destruct (String.eqb_spec "1.0" k) as [ <- | H10 ].
  { cbn -[String.eqb]. destruct (timespan s =? "month"); reflexivity. }
  cbn -[String.eqb]. rewrite !andb_false_r.
  destruct (String.eqb_spec "2.5" k) as [ <- | H25 ]; [ reflexivity | ].
  destruct (String.eqb_spec "4.5" k) as [ <- | H45 ]; [ reflexivity | ].
  destruct (String.eqb_spec "significant" k) as [ <- | Hsig ]; reflexivity.
Qed.

(** A click on a time button selects its window; a key without a button
    does nothing. *)
Lemma click_timespan_spec (k : string) (s : MapState) :
  click (timespanButtons s) k s
  = if existsb (fun t => t =? k) timespans then setTimespan k s else s.
Proof.
  unfold click, press, timespanButtons, timespans.
  cbn -[String.eqb].
  destruct (String.eqb_spec "hour" k) as [ <- | Hh ]; [ reflexivity | ].
  destruct (String.eqb_spec "day" k) as [ <- | Hd ]; [ reflexivity | ].
  destruct (String.eqb_spec "week" k) as [ <- | Hw ]; [ reflexivity | ].
  destruct (String.eqb_spec "month" k) as [ <- | Hm ]; reflexivity.
Qed.

Lemma existsb_options (k : string) (options : list string) :
  existsb (fun m => m =? k) options = true -> In k options.
Proof.
  intros H. apply existsb_exists in H. destruct H as (m & Hin & Heq).
  apply String.eqb_eq in Heq. subst m. exact Hin.
Qed.

(** A settled request leaves the filters and the requests made. *)
Lemma settle_view (p : Page) (n : nat) (outcome : FetchOutcome) :
  minMag (view (step p (Settle n outcome))) = minMag (view p) /\
  timespan (view (step p (Settle n outcome))) = timespan (view p) /\
  fetched (step p (Settle n outcome)) = fetched p.
Proof.
  simpl. destruct (nth_error (inflight p) n) as [ url | ]; [ | auto ].
  pose proof (fetchQuakeData_filters outcome url
    {| view := view p; console := console p; fetched := fetched p;
       inflight := remove_nth n (inflight p) |}) as Hf.
  simpl in Hf. destruct Hf as (Hm & Ht & Hfe & _).
  unfold rerender. rewrite (depsChanged_false _ _ Hm Ht). auto.
Qed.

(** The filters stay among the options at every step. *)
Lemma step_options (p : Page) (e : Event) :
  In (minMag (view p)) magnitudes /\ In (timespan (view p)) timespans ->
  In (minMag (view (step p e))) magnitudes /\
  In (timespan (view (step p e))) timespans.
Proof.
  intros [ Hm Ht ]. destruct e as [ k | k | n outcome ].
  - cbn [step]. rewrite rerender_view. cbn [view withView].
    rewrite click_magnitude_spec.
    destruct (existsb (fun m => m =? k) magnitudes) eqn:Hk;
      [ | split; assumption ].
    destruct (negb _); [ | split; assumption ].
    split; [ apply existsb_options, Hk | exact Ht ].
  - cbn [step]. rewrite rerender_view. cbn [view withView].
    rewrite click_timespan_spec.
    destruct (existsb (fun t => t =? k) timespans) eqn:Hk;
      [ | split; assumption ].
    split; [ exact Hm | apply existsb_options, Hk ].
  - destruct (settle_view p n outcome) as (Hm' & Ht' & _).
    rewrite Hm', Ht'. split; assumption.
Qed.

Lemma reachable_options (p : Page) :
  reachable p ->
  In (minMag (view p)) magnitudes /\ In (timespan (view p)) timespans.
Proof.
  apply (reachable_invariant
           (fun p => In (minMag (view p)) magnitudes /\
                     In (timespan (view p)) timespans)).
  - simpl. auto 10.
  - intros q e. apply step_options.
Qed.

(** X1. On every reachable page the magnitude filter is one of the five
    options and the time window one of the four: no click and no response
    gives a filter another value. *)
Theorem filters_are_options (p : Page) :
  reachable p ->
  In (minMag (view p)) ["all"; "1.0"; "2.5"; "4.5"; "significant"] /\
  In (timespan (view p)) ["hour"; "day"; "week"; "month"].
Proof.
  revert p.
  apply (reachable_invariant
           (fun p => In (minMag (view p)) magnitudes /\
                     In (timespan (view p)) timespans)).
  - split; [ right; right; left | right; right; left ]; reflexivity.
  - intros q e Hq. apply step_options, Hq.
Qed.

Lemma filters_are_options_witness :
  reachable dayFirst /\
  In (minMag (view dayFirst)) ["all"; "1.0"; "2.5"; "4.5"; "significant"] /\
  In (timespan (view dayFirst)) ["hour"; "day"; "week"; "month"].
Proof.
  assert (Hreach : reachable dayFirst) by (eexists; reflexivity).
  split; [ exact Hreach | exact (filters_are_options dayFirst Hreach) ].
Defined.

Lemma depsChanged_false_inv (before after : MapState) :
  depsChanged before after = false ->
  minMag after = minMag before /\ timespan after = timespan before.
Proof.
  unfold depsChanged. intros H. apply negb_false_iff, andb_true_iff in H.
  destruct H as [ Hm Ht ]. apply String.eqb_eq in Hm, Ht. auto.
Qed.

Lemma feedUrl_filters (s1 s2 : MapState) :
  minMag s1 = minMag s2 -> timespan s1 = timespan s2 ->
  feedUrl s1 = feedUrl s2.
Proof. intros Hm Ht. unfold feedUrl. rewrite Hm, Ht. reflexivity. Qed.

Lemma feedUrl_feed (s : MapState) : feedUrl s = feed (minMag s) (timespan s).
Proof. reflexivity. Qed.

(** X2. On every reachable page the request made last is the one for the
    filters now selected: the list of requests ends with the feed URL of
    the current magnitude and window. *)
Theorem last_request_is_current (p : Page) :
  reachable p ->
  exists earlier : list string,
    fetched p = (earlier ++ [feedUrl (view p)])%list.
Proof.
  revert p.
  apply (reachable_invariant
           (fun p => exists earlier,
                fetched p = (earlier ++ [feedUrl (view p)])%list)).
  - exists []. reflexivity.
  - intros p e [ earlier Hp ]. rewrite step_fetched.
    destruct (depsChanged (view p) (view (step p e))) eqn:Hdeps.
    + exists (fetched p). reflexivity.
    + apply depsChanged_false_inv in Hdeps. destruct Hdeps as [ Hm Ht ].
      exists earlier. rewrite app_nil_r, Hp.
      rewrite (feedUrl_filters _ _ Hm Ht). reflexivity.
Qed.

Lemma last_request_is_current_witness :
  reachable dayFirst /\
  exists earlier : list string,
    fetched dayFirst = (earlier ++ [feedUrl (view dayFirst)])%list.
Proof.
  assert (Hreach : reachable dayFirst) by (eexists; reflexivity).
  split; [ exact Hreach | exact (last_request_is_current dayFirst Hreach) ].
Defined.

(** X3. Every request a reachable page has made went to
    [.../summary//{m}_{t}.geojson] for one of the five magnitudes [m] and
    one of the four windows [t]; the base URL ends in a slash and the
    template adds another, so the path has the two slashes. *)
Theorem requests_are_feed_urls (p : Page) :
  reachable p ->
  Forall (fun url =>
            exists m t : string,
              In m ["all"; "1.0"; "2.5"; "4.5"; "significant"] /\
              In t ["hour"; "day"; "week"; "month"] /\
              url = ("https://earthquake.usgs.gov/earthquakes/feed/v1.0/summary//"
                       ++ m ++ "_" ++ t ++ ".geojson")%string)
         (fetched p).
Proof.
  intros Hreach.
  enough (Hinv :
    (In (minMag (view p)) magnitudes /\ In (timespan (view p)) timespans) /\
    Forall (fun url => exists m t : string,
                In m magnitudes /\ In t timespans /\ url = feed m t)
           (fetched p)) by exact (proj2 Hinv).
  revert p Hreach. apply reachable_invariant.
  - split; [ split; simpl; auto 10 | ].
    repeat constructor. exists "2.5", "week". simpl. auto 10.
  - intros p e [ Hopt Hall ].
    pose proof (step_options p e Hopt) as Hopt'.
    split; [ exact Hopt' | ].
    rewrite step_fetched. apply Forall_app. split; [ exact Hall | ].
    destruct (depsChanged (view p) (view (step p e))); [ | constructor ].
    constructor; [ | constructor ].
    exists (minMag (view (step p e))), (timespan (view (step p e))).
    destruct Hopt' as [ Hm Ht ]. auto using feedUrl_feed.
Qed.

Lemma requests_are_feed_urls_witness :
  reachable dayFirst /\
  Forall (fun url =>
            exists m t : string,
              In m ["all"; "1.0"; "2.5"; "4.5"; "significant"] /\
              In t ["hour"; "day"; "week"; "month"] /\
              url = ("https://earthquake.usgs.gov/earthquakes/feed/v1.0/summary//"
                       ++ m ++ "_" ++ t ++ ".geojson")%string)
         (fetched dayFirst).
Proof.
  assert (Hreach : reachable dayFirst) by (eexists; reflexivity).
  split; [ exact Hreach | exact (requests_are_feed_urls dayFirst Hreach) ].
Defined.

Lemma remove_nth_length {A : Type} (n : nat) (l : list A) (x : A) :
  nth_error l n = Some x -> S (List.length (remove_nth n l)) = List.length l.
Proof.
  revert n. induction l as [ | y l IH ]; intros [ | n ] Hn; simpl in *;
    try discriminate Hn; [ reflexivity | ].
  rewrite (IH n Hn). reflexivity.
Qed.

Lemma remove_nth_In {A : Type} (n : nat) (l : list A) (x : A) :
  In x (remove_nth n l) -> In x l.
Proof.
  revert n. induction l as [ | y l IH ]; intros [ | n ] Hin; simpl in *;
    try contradiction; [ right; exact Hin | ].
  destruct Hin as [ Hin | Hin ]; [ left; exact Hin | right; exact (IH n Hin) ].
Qed.

(** A settled request that was in flight runs the rest of
    [fetchQuakeData], and the render that follows makes no request. *)
Lemma settle_some (p : Page) (n : nat) (url : string) (outcome : FetchOutcome) :
  nth_error (inflight p) n = Some url ->
  step p (Settle n outcome) = snd (fetchQuakeData outcome url (settling n p)).
Proof.
  intros Hn. cbn [step]. rewrite Hn.
  pose proof (fetchQuakeData_filters outcome url (settling n p)) as Hf.
  cbn zeta in Hf. destruct Hf as (Hm & Ht & _).
  fold (settling n p). unfold rerender.
  rewrite (depsChanged_false (view p) _ Hm Ht). reflexivity.
Qed.

Lemma settle_none (p : Page) (n : nat) (outcome : FetchOutcome) :
  nth_error (inflight p) n = None -> step p (Settle n outcome) = p.
Proof. intros Hn. cbn [step]. rewrite Hn. reflexivity. Qed.

(** The two ways the call can leave the page. *)
Lemma fetchQuakeData_result (outcome : FetchOutcome) (url : string) (q : Page) :
  (exists e : exn, snd (fetchQuakeData outcome url q) = logged e q) \/
  (exists features : JSValue,
      snd (fetchQuakeData outcome url q)
      = withView (setQuakesJson features (view q)) q).
Proof.
  rewrite fetchQuakeData_unfold.
  destruct outcome as [ reason | resp ]; [ left; eexists; reflexivity | ].
  destruct (ok resp); [ | left; eexists; reflexivity ].
  destruct (bind (json resp) _) as [ features | e ];
    [ right | left ]; eexists; reflexivity.
Qed.

(** What a click does to the lists of the page. *)
Lemma click_lists (p : Page) (s' : MapState) :
  let p' := rerender (view p) (withView s' p) in
  console p' = console p /\
  exists added : list string,
    fetched p' = (fetched p ++ added)%list /\
    inflight p' = (inflight p ++ added)%list.
Proof.
  unfold rerender. cbn [view withView].
  destruct (depsChanged (view p) s'); cbn.
  - split; [ reflexivity | ]. eexists. split; reflexivity.
  - split; [ reflexivity | ]. exists []. rewrite !app_nil_r. auto.
Qed.

(** X4. On every reachable page the entries of the console and the
    requests in flight together are no more than the requests made, and
    every request in flight is one that was made: a failure is logged once
    and only for a request that has settled. *)
Theorem requests_are_accounted (p : Page) :
  reachable p ->
  (List.length (console p) + List.length (inflight p)
   <= List.length (fetched p))%nat /\
  forall url : string, In url (inflight p) -> In url (fetched p).
Proof.
  revert p. apply reachable_invariant.
  - split; [ simpl; lia | intros url H; exact H ].
  - intros p e [ Hcount Hin ].
    assert (Hclick : forall s', let p' := rerender (view p) (withView s' p) in
      (List.length (console p') + List.length (inflight p')
       <= List.length (fetched p'))%nat /\
      forall url, In url (inflight p') -> In url (fetched p')).
    { intros s'. destruct (click_lists p s') as (Hc & added & Hf & Hi).
      cbn zeta. rewrite Hc, Hf, Hi, !length_app. split; [ lia | ].
      intros url Hu. apply in_app_iff in Hu. apply in_app_iff.
      destruct Hu as [ Hu | Hu ]; [ left; apply Hin, Hu | right; exact Hu ]. }
    destruct e as [ k | k | n outcome ]; [ apply Hclick | apply Hclick | ].
    destruct (nth_error (inflight p) n) as [ url | ] eqn:Hn.
    + rewrite (settle_some p n url outcome Hn).
      pose proof (remove_nth_length n (inflight p) url Hn) as Hlen.
      destruct (fetchQuakeData_result outcome url (settling n p))
        as [ [ e He ] | [ features Hf ] ].
      * rewrite He. cbn. rewrite length_app. cbn. split; [ lia | ].
        intros u Hu. apply Hin, (remove_nth_In n), Hu.
      * rewrite Hf. cbn. split; [ lia | ].
        intros u Hu. apply Hin, (remove_nth_In n), Hu.
    + rewrite (settle_none p n outcome Hn). split; assumption.
Qed.

Lemma requests_are_accounted_witness :
  reachable dayFirst /\
  (List.length (console dayFirst) + List.length (inflight dayFirst)
   <= List.length (fetched dayFirst))%nat /\
  forall url : string, In url (inflight dayFirst) -> In url (fetched dayFirst).
Proof.
  assert (Hreach : reachable dayFirst) by (eexists; reflexivity).
  split; [ exact Hreach | exact (requests_are_accounted dayFirst Hreach) ].
Defined.

Lemma depsChanged_same (s : MapState) : depsChanged s s = false.
Proof. apply depsChanged_false; reflexivity. Qed.

Lemma withView_view (p : Page) : withView (view p) p = p.
Proof. destruct p. reflexivity. Qed.

(** A click that leaves the state leaves the page. *)
Lemma rerender_same (p : Page) : rerender (view p) (withView (view p) p) = p.
Proof.
  unfold rerender. cbn [view withView]. rewrite depsChanged_same.
  apply withView_view.
Qed.

(** X5. Clicking a button a second time does nothing: the page after two
    clicks on the same magnitude button, or on the same time button, is the
    page after one, so the second click makes no request. *)
Theorem second_click_changes_nothing (p : Page) (k : string) :
  step (step p (ClickMagnitude k)) (ClickMagnitude k)
  = step p (ClickMagnitude k) /\
  step (step p (ClickTimespan k)) (ClickTimespan k)
  = step p (ClickTimespan k).
Proof.
  split.
  - cbn [step]. rewrite !rerender_view. cbn [view withView].
    rewrite (click_magnitude_spec k (view p)).
    destruct (existsb (fun m => m =? k) magnitudes
              && negb ((timespan (view p) =? "month")
                       && ((k =? "all") || (k =? "1.0")))) eqn:Hsel.
    + set (q := rerender (view p) (withView (setMinMag k (view p)) p)).
      assert (Hq : view q = setMinMag k (view p)) by apply rerender_view.
      rewrite click_magnitude_spec. cbn [timespan setMinMag]. rewrite Hsel.
      replace (setMinMag k (setMinMag k (view p))) with (view q)
        by (rewrite Hq; reflexivity).
      rewrite <- Hq. apply rerender_same.
    + rewrite rerender_same, click_magnitude_spec, Hsel. apply rerender_same.
  - cbn [step]. rewrite !rerender_view. cbn [view withView].
    rewrite (click_timespan_spec k (view p)).
    destruct (existsb (fun t => t =? k) timespans) eqn:Hsel.
    + set (q := rerender (view p) (withView (setTimespan k (view p)) p)).
      assert (Hq : view q = setTimespan k (view p)) by apply rerender_view.
      rewrite click_timespan_spec, Hsel.
      replace (setTimespan k (setTimespan k (view p))) with (view q)
        by (rewrite Hq; reflexivity).
      rewrite <- Hq. apply rerender_same.
    + rewrite rerender_same, click_timespan_spec, Hsel. apply rerender_same.
Qed.

(** X6. A response never causes a request: when a request settles, however
    it ends, the filters and the list of requests made stay as they are (no
    retry), a request that was in flight is taken out of flight, and a
    response for a request that is not in flight changes nothing. *)
Theorem settle_makes_no_request (p : Page) (n : nat) (outcome : FetchOutcome) :
  fetched (step p (Settle n outcome)) = fetched p /\
  minMag (view (step p (Settle n outcome))) = minMag (view p) /\
  timespan (view (step p (Settle n outcome))) = timespan (view p) /\
  (forall url : string,
      nth_error (inflight p) n = Some url ->
      inflight (step p (Settle n outcome)) = remove_nth n (inflight p) /\
      S (List.length (inflight (step p (Settle n outcome))))
      = List.length (inflight p)) /\
  (nth_error (inflight p) n = None -> step p (Settle n outcome) = p).
Proof.
  destruct (settle_view p n outcome) as (Hm & Ht & Hf).
  split; [ exact Hf | ]. split; [ exact Hm | ]. split; [ exact Ht | ].
  split; [ | apply settle_none ].
  intros url Hn. rewrite (settle_some p n url outcome Hn).
  pose proof (fetchQuakeData_filters outcome url (settling n p)) as Hq.
  cbn zeta in Hq. destruct Hq as (_ & _ & _ & Hi). rewrite Hi.
  split; [ reflexivity | exact (remove_nth_length n (inflight p) url Hn) ].
Qed.

(** X7. A response is stored whichever request it answers: when the
    [n]-th request in flight succeeds, the collection becomes its
    [features] even if its URL is not the one of the filters now selected,
    so a late response to an earlier request replaces newer data. *)
Theorem any_response_is_stored
  (p : Page) (n : nat) (url : string) (outcome : FetchOutcome)
  (features : JSValue) :
  nth_error (inflight p) n = Some url ->
  fetch_succeeded outcome features ->
  quakesJson (view (step p (Settle n outcome))) = features /\
  minMag (view (step p (Settle n outcome))) = minMag (view p) /\
  timespan (view (step p (Settle n outcome))) = timespan (view p).
Proof.
  intros Hn Hok.
  destruct (settle_view p n outcome) as (Hm & Ht & _).
  split; [ | split; assumption ].
  rewrite (settle_some p n url outcome Hn), fetchQuakeData_unfold.
  destruct outcome as [ reason | resp ]; cbn in Hok; [ contradiction | ].
  destruct Hok as [ Hstatus Hbody ]. rewrite Hstatus, Hbody. reflexivity.
Qed.

(** The window is "day" and the day's event is shown; the request for the
    week, made first, is still in flight, and its response takes the place
    of the day's event. *)
Lemma any_response_is_stored_witness :
  timespan (view dayFirst) = "day" /\
  quakesJson (view dayFirst) = JArr [JObj [("id", JStr "today")]] /\
  nth_error (inflight dayFirst) 0 = Some (feed "2.5" "week") /\
  fetch_succeeded (responding [JObj [("id", JStr "last week")]])
                  (JArr [JObj [("id", JStr "last week")]]) /\
  quakesJson
    (view (step dayFirst (Settle 0 (responding [JObj [("id", JStr "last week")]]))))
  = JArr [JObj [("id", JStr "last week")]] /\
  timespan
    (view (step dayFirst (Settle 0 (responding [JObj [("id", JStr "last week")]]))))
  = "day".
Proof.
  assert (Hn : nth_error (inflight dayFirst) 0 = Some (feed "2.5" "week"))
    by reflexivity.
  assert (Hok : fetch_succeeded (responding [JObj [("id", JStr "last week")]])
                  (JArr [JObj [("id", JStr "last week")]]))
    by (split; reflexivity).
  destruct (any_response_is_stored dayFirst 0 (feed "2.5" "week")
              (responding [JObj [("id", JStr "last week")]])
              (JArr [JObj [("id", JStr "last week")]]) Hn Hok)
    as (Hstored & _ & Hwindow).
  split; [ reflexivity | ].
  split; [ reflexivity | ].
  split; [ exact Hn | ].
  split; [ exact Hok | ].
  split; [ exact Hstored | exact Hwindow ].
Defined.

(** X8. However the request ends, [fetchQuakeData] returns normally and
    does one of two things, never both: it writes one entry to the console
    and leaves the state (the request failed), or it replaces the
    collection and leaves the console (the request succeeded). *)
Theorem fetch_logs_or_stores (outcome : FetchOutcome) (url : string) (p : Page) :
  ((fetch_failed outcome /\
    exists e : exn, fetchQuakeData outcome url p = (Normal tt, logged e p)) \/
   (exists features : JSValue,
       fetch_succeeded outcome features /\
       fetchQuakeData outcome url p
       = (Normal tt, withView (setQuakesJson features (view p)) p))) /\
  ~ (fetch_failed outcome /\
     exists features : JSValue, fetch_succeeded outcome features).
Proof.
  split.
  - rewrite fetchQuakeData_unfold.
    destruct outcome as [ reason | resp ]; cbn [fetch_failed fetch_succeeded].
    + left. split; [ exact I | eexists; reflexivity ].
    + destruct (ok resp).
      * destruct (bind (json resp) _) as [ features | e ].
        -- right. exists features. auto.
        -- left. split; [ right; exists e; reflexivity | eexists; reflexivity ].
      * left. split; [ left; reflexivity | eexists; reflexivity ].
  - intros [ Hfail [ features Hok ] ].
    destruct outcome as [ reason | resp ]; cbn in Hfail, Hok;
      [ contradiction | ].
    destruct Hok as [ Hstatus Hbody ].
    destruct Hfail as [ Hfalse | [ e He ] ]; congruence.
Qed.

(** X9. The combination the magnitude buttons are disabled for can only
    come about by a click on the time button "month": a click on a
    magnitude button, a click on another time button and a response never
    lead from a page without it to a page with it. *)
Theorem only_month_click_conflicts (p : Page) (e : Event) :
  ~ conflict (view p) -> conflict (view (step p e)) ->
  e = ClickTimespan "month".
Proof.
  intros Hbefore Hafter.
  destruct e as [ k | k | n outcome ].
  - exfalso. apply Hbefore. revert Hafter.
    cbn [step]. rewrite rerender_view. cbn [view withView].
    rewrite click_magnitude_spec.
    destruct (existsb (fun m => m =? k) magnitudes); cbn [andb];
      [ | exact (fun H => H) ].
    destruct (timespan (view p) =? "month") eqn:Hmonth; cbn [andb negb].
    + destruct (String.eqb_spec k "all") as [ -> | Hall ]; cbn [orb negb];
        [ exact (fun H => H) | ].
      destruct (String.eqb_spec k "1.0") as [ -> | H10 ]; cbn [negb];
        [ exact (fun H => H) | ].
      intros [ _ [ Hk | Hk ] ]; cbn in Hk; contradiction.
    + intros [ Ht _ ]. cbn in Ht. apply String.eqb_neq in Hmonth.
      contradiction.
  - revert Hafter.
    cbn [step]. rewrite rerender_view. cbn [view withView].
    rewrite click_timespan_spec.
    destruct (existsb (fun t => t =? k) timespans).
    + intros [ Ht _ ]. cbn in Ht. rewrite Ht. reflexivity.
    + intros Hafter. contradiction.
  - exfalso. apply Hbefore.
    destruct (settle_view p n outcome) as (Hm & Ht & _).
    unfold conflict in *. rewrite Hm, Ht in Hafter. exact Hafter.
Qed.

Lemma only_month_click_conflicts_witness :
  ~ conflict (view (step mount (ClickMagnitude "all"))) /\
  conflict (view (step (step mount (ClickMagnitude "all")) (ClickTimespan "month"))) /\
  ClickTimespan "month" = ClickTimespan "month".
Proof.
  assert (Hbefore : ~ conflict (view (step mount (ClickMagnitude "all")))).
  { intros [ Ht _ ]. discriminate Ht. }
  assert (Hafter : conflict (view (step (step mount (ClickMagnitude "all"))
                                        (ClickTimespan "month")))).
  { split; [ reflexivity | left; reflexivity ]. }
  split; [ exact Hbefore | ]. split; [ exact Hafter | ].
  exact (only_month_click_conflicts (step mount (ClickMagnitude "all"))
           (ClickTimespan "month") Hbefore Hafter).
Defined.

(** X10. On every reachable page each row of buttons shows exactly one
    button as selected, the one of the current filter: the highlighted
    magnitude button is the one of [minMag] and the highlighted time button
    the one of [timespan]. *)
Theorem one_button_highlighted (p : Page) :
  reachable p ->
  highlighted (magnitudeButtons (view p)) = [minMag (view p)] /\
  highlighted (timespanButtons (view p)) = [timespan (view p)].
Proof.
  intros Hreach. destruct (reachable_options p Hreach) as [ Hm Ht ].
  unfold highlighted, magnitudeButtons, timespanButtons.
  split.
  - cbn in Hm. decompose [or] Hm; try contradiction;
      match goal with H : _ = minMag (view p) |- _ => rewrite <- H end;
      reflexivity.
  - cbn in Ht. decompose [or] Ht; try contradiction;
      match goal with H : _ = timespan (view p) |- _ => rewrite <- H end;
      reflexivity.
Qed.

Lemma one_button_highlighted_witness :
  reachable dayFirst /\
  highlighted (magnitudeButtons (view dayFirst)) = ["2.5"] /\
  highlighted (timespanButtons (view dayFirst)) = ["day"].
Proof.
  assert (Hreach : reachable dayFirst) by (eexists; reflexivity).
  split; [ exact Hreach | exact (one_button_highlighted dayFirst Hreach) ].
Defined.

(* ================================================================== *)
(** ** Further properties of the markers and the popups *)

(** X11. A feature without [properties] (the member is missing or null)
    is safe for [onEachFeature], whose guard returns the layer as it is,
    but not for [pointToLayer], which reads [properties.mag] unguarded and
    throws a TypeError. *)
Theorem missing_properties
  (host : Host) (fm : list (string * JSValue))
  (latlng : LatLng) (layer : CircleMarker) :
  lookup "properties" fm = JUndefined \/ lookup "properties" fm = JNull ->
  onEachFeature host (JObj fm) layer = Normal layer /\
  exists message : string,
    pointToLayer host (JObj fm) latlng = Throw (TypeError message).
Proof.
  intros Hmissing. unfold onEachFeature, pointToLayer. cbn [prop bind].
  destruct Hmissing as [ -> | -> ]; cbn; split;
    first [ reflexivity | eexists; reflexivity ].
Qed.

Lemma missing_properties_witness :
  (lookup "properties" [("type", JStr "Feature")] = JUndefined \/
   lookup "properties" [("type", JStr "Feature")] = JNull) /\
  onEachFeature example_host (JObj [("type", JStr "Feature")]) somewhere
  = Normal somewhere /\
  exists message : string,
    pointToLayer example_host (JObj [("type", JStr "Feature")])
                 {| lat := 35.2; lng := -120.1 |}
    = Throw (TypeError message).
Proof.
  assert (Hmissing :
    lookup "properties" [("type", JStr "Feature")] = JUndefined \/
    lookup "properties" [("type", JStr "Feature")] = JNull)
    by (left; reflexivity).
  split; [ exact Hmissing | ].
  exact (missing_properties example_host [("type", JStr "Feature")]
           {| lat := 35.2; lng := -120.1 |} somewhere Hmissing).
Defined.

(** A double that is not equal to itself is the NaN. *)
Lemma is_nan_eq (x : float) : PrimFloat.is_nan x = true -> x = PrimFloat.nan.
Proof.
  unfold PrimFloat.is_nan. rewrite FloatAxioms.eqb_spec. intros Hx.
  apply negb_true_iff in Hx.
  rewrite <- (SF2Prim_Prim2SF x).
  destruct (Prim2SF x) as [ sg | sg | | sg m e ]; [ | | reflexivity | ];
    exfalso; revert Hx; unfold SFeqb, SFcompare.
  - discriminate.
  - destruct sg; discriminate.
  - rewrite Z.compare_refl, Pos.compare_cont_refl.
    destruct sg; discriminate.
Qed.

(** X12. [getMarkerRadius] maps NaN to NaN on doubles, whatever [Math.pow]
    approximates: a magnitude that is not a number gives a radius that is
    not a number. *)
Theorem markerRadius_of_nan (approx : float -> float -> float) (m : float) :
  PrimFloat.is_nan m = true ->
  PrimFloat.is_nan (Double.markerRadius approx m) = true.
Proof. intros Hm. rewrite (is_nan_eq m Hm). reflexivity. Qed.

Lemma markerRadius_of_nan_witness :
  PrimFloat.is_nan (PrimFloat.div 0 0) = true /\
  PrimFloat.is_nan (Double.markerRadius (pow_approx example_host)
                                        (PrimFloat.div 0 0)) = true.
Proof.
  split; [ reflexivity | ].
  apply (markerRadius_of_nan (pow_approx example_host) (PrimFloat.div 0 0)).
  reflexivity.
Defined.

(** X13. A feature whose properties have no [mag] still gets its marker,
    red and at the given position, with a radius that is NaN; a [mag] of
    null is drawn as magnitude 0. *)
Theorem marker_without_magnitude
  (host : Host) (fm pm : list (string * JSValue)) (latlng : LatLng) :
  lookup "properties" fm = JObj pm ->
  (lookup "mag" pm = JUndefined ->
   pointToLayer host (JObj fm) latlng
   = Normal (L_circleMarker latlng PrimFloat.nan "red")) /\
  (lookup "mag" pm = JNull ->
   pointToLayer host (JObj fm) latlng
   = Normal (L_circleMarker latlng
               (Double.markerRadius (pow_approx host) 0) "red")).
Proof.
  intros Hp. unfold pointToLayer. cbn [prop bind]. rewrite Hp. cbn [prop bind].
  split; intros ->; reflexivity.
Qed.

Lemma marker_without_magnitude_witness :
  lookup "properties" [("properties", JObj [("place", JStr "nowhere")])]
  = JObj [("place", JStr "nowhere")] /\
  pointToLayer example_host
    (JObj [("properties", JObj [("place", JStr "nowhere")])])
    {| lat := 35.2; lng := -120.1 |}
  = Normal (L_circleMarker {| lat := 35.2; lng := -120.1 |} PrimFloat.nan "red").
Proof.
  split; [ reflexivity | ].
  exact (proj1 (marker_without_magnitude example_host
                  [("properties", JObj [("place", JStr "nowhere")])]
                  [("place", JStr "nowhere")]
                  {| lat := 35.2; lng := -120.1 |} eq_refl)
               eq_refl).
Defined.

(** X14. With a truthy place, [onEachFeature] throws a TypeError whenever
    [feature.geometry.coordinates] cannot be read (the geometry is missing
    or null) or is not iterable (missing, null, a number, an object): the
    guard does not look at the geometry. *)
Theorem unusable_coordinates
  (host : Host) (fm pm : list (string * JSValue)) (layer : CircleMarker) :
  lookup "properties" fm = JObj pm ->
  ToBoolean (lookup "place" pm) = true ->
  (forall coordinates : JSValue,
      coordinates_of (JObj fm) = Normal coordinates ->
      iterable coordinates = false) ->
  exists message : string,
    onEachFeature host (JObj fm) layer = Throw (TypeError message).
Proof.
  intros Hp Hplace Hcoord. rewrite onEachFeature_unfold. cbn [prop].
  rewrite (place_truthy_object fm pm Hp), Hplace.
  unfold buildPopup, Popup. cbn [spread prop bind]. rewrite Hp.
  unfold coordinates_of in Hcoord. cbn [prop bind] in Hcoord.
  destruct (prop (lookup "geometry" fm) "coordinates") as [ c | e ] eqn:Hc.
  - specialize (Hcoord c eq_refl). cbn [bind].
    destruct c; cbn in Hcoord; try discriminate Hcoord;
      cbn; eexists; reflexivity.
  - cbn [bind].
    destruct (lookup "geometry" fm); cbn in Hc; try discriminate Hc;
      injection Hc as <-; eexists; reflexivity.
Qed.

(** A feature with a place and a null geometry, as GeoJSON allows for an
    event that is not located. *)
Lemma unusable_coordinates_witness :
  ToBoolean (lookup "place" [("place", JStr "somewhere")]) = true /\
  (forall coordinates : JSValue,
      coordinates_of
        (JObj [ ("properties", JObj [("place", JStr "somewhere")]);
                ("geometry", JNull) ])
      = Normal coordinates ->
      iterable coordinates = false) /\
  exists message : string,
    onEachFeature example_host
      (JObj [ ("properties", JObj [("place", JStr "somewhere")]);
              ("geometry", JNull) ])
      somewhere
    = Throw (TypeError message).
Proof.
  assert (Hcoord : forall coordinates : JSValue,
      coordinates_of
        (JObj [ ("properties", JObj [("place", JStr "somewhere")]);
                ("geometry", JNull) ])
      = Normal coordinates ->
      iterable coordinates = false).
  { intros c Hc. discriminate Hc. }
  split; [ reflexivity | ]. split; [ exact Hcoord | ].
  exact (unusable_coordinates example_host
           [ ("properties", JObj [("place", JStr "somewhere")]);
             ("geometry", JNull) ]
           [("place", JStr "somewhere")] somewhere eq_refl eq_refl Hcoord).
Defined.

(** X15. A position of two numbers, longitude and latitude without a
    depth, still gets its popup: the depth is [undefined], which renders
    as nothing, and the body reads "DEPTH:  km". *)
Theorem popup_without_depth
  (host : Host) (fm pm gm : list (string * JSValue))
  (lon lat mag : float) (place type url : string) (layer : CircleMarker) :
  lookup "properties" fm = JObj pm ->
  lookup "geometry" fm = JObj gm ->
  lookup "coordinates" gm = JArr [JNum lon; JNum lat] ->
  lookup "place" pm = JStr place -> place <> "" ->
  lookup "mag" pm = JNum mag ->
  lookup "type" pm = JStr type ->
  lookup "url" pm = JStr url ->
  let content := boundPopup (onEachFeature host (JObj fm) layer) in
  onEachFeature host (JObj fm) layer = Normal (bindPopup content layer) /\
  map textContent (elementsOf "p" content)
  = [ "MAGNITUDE: " ++ Number_toString host mag ++ "DEPTH: " ++ " km"
      ++ "TYPE: " ++ type ++ "Lon/Lat: " ++ Number_toString host lon ++ ", "
      ++ Number_toString host lat ].
Proof.
  intros Hp Hg Hc Hplace Hne Hmag Htype Hurl content.
  assert (Htruthy : place_truthy (JObj fm) = true).
  { rewrite (place_truthy_object fm pm Hp), Hplace. apply ToBoolean_JStr, Hne. }
  assert (Hrun : exists html,
    onEachFeature host (JObj fm) layer = Normal (bindPopup html layer) /\
    map textContent (elementsOf "p" html)
    = [ "MAGNITUDE: " ++ Number_toString host mag ++ "DEPTH: " ++ " km"
        ++ "TYPE: " ++ type ++ "Lon/Lat: " ++ Number_toString host lon ++ ", "
        ++ Number_toString host lat ]).
  { rewrite onEachFeature_unfold. cbn [prop]. rewrite Htruthy.
    unfold buildPopup, Popup. cbn [spread prop bind].
    rewrite Hp, Hg. cbn [prop bind]. rewrite Hc. cbn [destructure3 nth bind prop].
    rewrite Hplace, Hmag, Htype, Hurl.
    eexists. split; [ reflexivity | ].
    simpl. rewrite append_nil_r. reflexivity. }
  destruct Hrun as (html & Hrun & Htext).
  subst content. rewrite Hrun. split; [ reflexivity | exact Htext ].
Qed.

Lemma popup_without_depth_witness :
  "10km N of Testville" <> "" /\
  map textContent
      (elementsOf "p"
         (boundPopup
            (onEachFeature example_host
               (JObj [ ("properties",
                        JObj [ ("mag", JNum 4.2);
                               ("place", JStr "10km N of Testville");
                               ("type", JStr "earthquake");
                               ("url", JStr "http://x") ]);
                       ("geometry",
                        JObj [ ("coordinates",
                                JArr [JNum (-120.1); JNum 35.2]) ]) ])
               somewhere)))
  = [ "MAGNITUDE: 4.2DEPTH:  kmTYPE: earthquakeLon/Lat: -120.1, 35.2" ].
Proof.
  assert (Hne : "10km N of Testville" <> "") by discriminate.
  split; [ exact Hne | ].
  exact (proj2 (popup_without_depth example_host
                  [ ("properties",
                     JObj [ ("mag", JNum 4.2);
                            ("place", JStr "10km N of Testville");
                            ("type", JStr "earthquake");
                            ("url", JStr "http://x") ]);
                    ("geometry",
                     JObj [ ("coordinates", JArr [JNum (-120.1); JNum 35.2]) ]) ]
                  [ ("mag", JNum 4.2); ("place", JStr "10km N of Testville");
                    ("type", JStr "earthquake"); ("url", JStr "http://x") ]
                  [ ("coordinates", JArr [JNum (-120.1); JNum 35.2]) ]
                  (-120.1) 35.2 4.2 "10km N of Testville" "earthquake"
                  "http://x" somewhere
                  eq_refl eq_refl eq_refl eq_refl Hne eq_refl eq_refl eq_refl)).
Defined.

(** X16. Read over the real numbers, the marker is a circle whose area is
    [10 * 10^((m-1)/2.5)]: the area is 10 at magnitude 1 and ten times
    larger for every 2.5 magnitudes more, and the radius is positive for
    every magnitude. *)
Theorem marker_area (m : R) :
  (PI * (getMarkerRadius m * getMarkerRadius m) = 10 * Rpower 10 ((m - 1) / 2.5)
   /\ PI * (getMarkerRadius 1 * getMarkerRadius 1) = 10
   /\ getMarkerRadius (m + 2.5) * getMarkerRadius (m + 2.5)
      = 10 * (getMarkerRadius m * getMarkerRadius m)
   /\ 0 < getMarkerRadius m)%R.
Proof.
  assert (Harea : forall x : R,
    (PI * (getMarkerRadius x * getMarkerRadius x)
     = 10 * Rpower 10 ((x - 1) / 2.5))%R).
  { intros x. rewrite getMarkerRadius_real.
    rewrite sqrt_sqrt by apply Rlt_le, area_pos.
    field. apply PI_neq0. }
  assert (Hsquare : forall x : R,
    (getMarkerRadius x * getMarkerRadius x
     = 10 * Rpower 10 ((x - 1) / 2.5) / PI)%R).
  { intros x. rewrite getMarkerRadius_real.
    apply sqrt_sqrt, Rlt_le, area_pos. }
  split; [ apply Harea | ].
  split.
  { rewrite Harea. replace ((1 - 1) / 2.5)%R with 0%R by lra.
    rewrite Rpower_O by lra. lra. }
  split; [ | apply getMarkerRadius_real_pos ].
  rewrite !Hsquare.
  replace ((m + 2.5 - 1) / 2.5)%R with ((m - 1) / 2.5 + 1)%R by lra.
  rewrite Rpower_plus, Rpower_1 by lra.
  field. apply PI_neq0.
Qed.

(* ================================================================== *)
(** ** Further properties of the render *)

(** X17. The render of [Map] reads [quakesJson.length] for the key of the
    GeoJSON layer, and this throws exactly when the collection is
    [undefined] or [null]. A successful response whose document has no
    [features] member stores [undefined] without logging anything, so the
    render that follows throws a TypeError. *)
Theorem render_after_featureless_response
  (members : list (string * JSValue)) (url : string) (p : Page) :
  lookup "features" members = JUndefined ->
  let p' :=
    snd (fetchQuakeData
           (Resolves {| ok := true; json := Normal (JObj members) |}) url p) in
  (forall s : MapState,
      (exists e : exn, geoJsonKey s = Throw e) <->
      quakesJson s = JUndefined \/ quakesJson s = JNull) /\
  console p' = console p /\
  quakesJson (view p') = JUndefined /\
  exists message : string, geoJsonKey (view p') = Throw (TypeError message).
Proof.
  intros Hnone p'. split.
  - intros s. unfold geoJsonKey, length_of. split.
    + intros [ e He ]. destruct (quakesJson s); try discriminate He; auto.
    + intros [ -> | -> ]; eexists; reflexivity.
  - subst p'. rewrite fetchQuakeData_unfold. cbn [ok json bind prop].
    rewrite Hnone. cbn. split; [ reflexivity | ]. split; [ reflexivity | ].
    eexists. reflexivity.
Qed.

Lemma render_after_featureless_response_witness :
  lookup "features" [("error", JStr "not found")] = JUndefined /\
  quakesJson (view mount) = JArr [] /\
  geoJsonKey (view mount) = Normal (JNum 0) /\
  exists message : string,
    geoJsonKey
      (view (snd (fetchQuakeData
                    (Resolves {| ok := true;
                                 json := Normal (JObj [("error", JStr "not found")]) |})
                    (feedUrl initialState) mount)))
    = Throw (TypeError message).
Proof.
  destruct (render_after_featureless_response
              [("error", JStr "not found")] (feedUrl initialState) mount
              eq_refl) as (_ & _ & _ & Hthrows).
  split; [ reflexivity | ]. split; [ reflexivity | ].
  split; [ reflexivity | exact Hthrows ].
Defined.

(** X18. The key of the GeoJSON layer is the number of events: when a
    response replaces the collection by another of the same length, the
    key stays as it was, although the events differ. *)
Theorem same_length_same_key
  (p : Page) (n : nat) (url : string) (outcome : FetchOutcome)
  (shown received : list JSValue) :
  nth_error (inflight p) n = Some url ->
  quakesJson (view p) = JArr shown ->
  fetch_succeeded outcome (JArr received) ->
  List.length received = List.length shown ->
  quakesJson (view (step p (Settle n outcome))) = JArr received /\
  geoJsonKey (view (step p (Settle n outcome))) = geoJsonKey (view p).
Proof.
  intros Hn Hshown Hok Hlen.
  assert (Hstored : quakesJson (view (step p (Settle n outcome))) = JArr received).
  { rewrite (settle_some p n url outcome Hn), fetchQuakeData_unfold.
    destruct outcome as [ reason | resp ]; cbn in Hok; [ contradiction | ].
    destruct Hok as [ Hstatus Hbody ]. rewrite Hstatus, Hbody. reflexivity. }
  split; [ exact Hstored | ].
  unfold geoJsonKey. rewrite Hstored, Hshown. cbn [length_of].
  rewrite Hlen. reflexivity.
Qed.

Lemma same_length_same_key_witness :
  nth_error (inflight dayFirst) 0 = Some (feed "2.5" "week") /\
  quakesJson (view dayFirst) = JArr [JObj [("id", JStr "today")]] /\
  quakesJson
    (view (step dayFirst (Settle 0 (responding [JObj [("id", JStr "last week")]]))))
  = JArr [JObj [("id", JStr "last week")]] /\
  geoJsonKey
    (view (step dayFirst (Settle 0 (responding [JObj [("id", JStr "last week")]]))))
  = geoJsonKey (view dayFirst).
Proof.
  assert (Hok : fetch_succeeded (responding [JObj [("id", JStr "last week")]])
                  (JArr [JObj [("id", JStr "last week")]]))
    by (split; reflexivity).
  split; [ reflexivity | ]. split; [ reflexivity | ].
  exact (same_length_same_key dayFirst 0 (feed "2.5" "week")
           (responding [JObj [("id", JStr "last week")]])
           [JObj [("id", JStr "today")]] [JObj [("id", JStr "last week")]]
           eq_refl eq_refl Hok eq_refl).
Defined.

Lemma append_cancel_l (a x y : string) : a ++ x = a ++ y -> x = y.
Proof.
  induction a as [ | c a IH ]; cbn; intros H; [ exact H | ].
  injection H as H. exact (IH H).
Qed.

(** X19. Among the options, the feed URL tells the filters: two selections
    of magnitude and window with the same URL are the same selection. *)
Theorem feedUrl_tells_filters (s1 s2 : MapState) :
  In (minMag s1) ["all"; "1.0"; "2.5"; "4.5"; "significant"] ->
  In (timespan s1) ["hour"; "day"; "week"; "month"] ->
  In (minMag s2) ["all"; "1.0"; "2.5"; "4.5"; "significant"] ->
  In (timespan s2) ["hour"; "day"; "week"; "month"] ->
  feedUrl s1 = feedUrl s2 ->
  minMag s1 = minMag s2 /\ timespan s1 = timespan s2.
Proof.
  intros Hm1 Ht1 Hm2 Ht2 Hurl. unfold feedUrl in Hurl.
  apply append_cancel_l, append_cancel_l in Hurl.
  destruct s1 as [ q1 m1 t1 ], s2 as [ q2 m2 t2 ].
  cbn [minMag timespan] in *. cbn [In] in Hm1, Ht1, Hm2, Ht2.
  decompose [or] Hm1; decompose [or] Ht1; try contradiction; subst m1 t1;
    decompose [or] Hm2; decompose [or] Ht2; try contradiction; subst m2 t2;
    first [ split; reflexivity | discriminate Hurl ].
Qed.

Lemma feedUrl_tells_filters_witness :
  In (minMag (view dayFirst)) ["all"; "1.0"; "2.5"; "4.5"; "significant"] /\
  In (timespan (view dayFirst)) ["hour"; "day"; "week"; "month"] /\
  quakesJson (view dayFirst) <> quakesJson (setTimespan "day" initialState) /\
  feedUrl (view dayFirst) = feedUrl (setTimespan "day" initialState) /\
  minMag (view dayFirst) = minMag (setTimespan "day" initialState) /\
  timespan (view dayFirst) = timespan (setTimespan "day" initialState).
Proof.
  assert (Hm : In "2.5" ["all"; "1.0"; "2.5"; "4.5"; "significant"])
    by (right; right; left; reflexivity).
  assert (Ht : In "day" ["hour"; "day"; "week"; "month"])
    by (right; left; reflexivity).
  split; [ exact Hm | ]. split; [ exact Ht | ].
  split; [ discriminate | ]. split; [ reflexivity | ].
  exact (feedUrl_tells_filters (view dayFirst) (setTimespan "day" initialState)
           Hm Ht Hm Ht eq_refl).
Defined.

(** A step makes at most one request, and a response makes none. *)
Lemma step_fetched_length (p : Page) (e : Event) :
  (List.length (fetched (step p e))
   <= List.length (fetched p) + clicks [e])%nat.
Proof.
  destruct e as [ k | k | n outcome ].
  - rewrite step_fetched, length_app.
    destruct (depsChanged _ _); cbn; lia.
  - rewrite step_fetched, length_app.
    destruct (depsChanged _ _); cbn; lia.
  - destruct (settle_view p n outcome) as (_ & _ & Hf). rewrite Hf. cbn. lia.
Qed.

(** X20. The page asks the feed once when it mounts and at most once per
    click after that: after any events, the requests made are no more than
    one plus the number of clicks, however many responses arrived and
    however they ended. *)
Theorem requests_bounded_by_clicks (events : list Event) :
  (List.length (fetched (run mount events)) <= 1 + clicks events)%nat.
Proof.
  enough (Hgen : forall p : Page,
    (List.length (fetched (run p events))
     <= List.length (fetched p) + clicks events)%nat)
    by exact (Hgen mount).
  induction events as [ | e events IH ]; intros p; [ cbn; lia | ].
  change (run p (e :: events)) with (run (step p e) events).
  specialize (IH (step p e)).
  pose proof (step_fetched_length p e) as Hstep.
  unfold clicks in *. cbn [filter] in *.
  destruct e; cbn [List.length] in *; lia.
Qed.
